(** * baybe: recommenders and scalers

    A shallow embedding of [baybe/recommender.py] and [baybe/scaler.py].

    Conventions of the embedding:
    - torch tensors of floating-point numbers are idealised as lists of
      real numbers ([R]); a 2-dimensional tensor carries its number of
      columns, so that the shape (0, D) is told apart from (0, D');
    - a raised Python exception is a value of [exception]; a call that
      may raise returns a [result];
    - an object that a method mutates ([self] of a scaler, the class-level
      [SUBCLASSES] dictionary) is passed in and returned explicitly;
    - what torch and pandas leave open (the order [torch.argsort] may give
      to equal values, the rows [DataFrame.sample] draws) is a section
      variable, constrained by the library's documented contract only; the
      order [torch.argsort] does give on a CPU is that of the C++
      library's [std::sort], modelled in [StdSort];
    - arithmetic is exact: where floating point rounds, or gives nan or
      inf (a division by zero, the standard deviation of fewer than two
      targets), the embedding has some real number.  The statements below
      are about figures that floating point represents exactly, or about
      shapes, exceptions and the flow of data, not about rounded values. *)

From Stdlib Require Import Reals Lra Lia ZArith String List Permutation Sorted.
From stdpp Require Import gmap strings list sorting.

(* ================================================================= *)
(** ** Python exceptions and fallible calls *)

Inductive exception : Type :=
| RuntimeError (msg : string)
| ValueError (msg : string)
| TypeError (msg : string)
| AttributeError (msg : string)
| IndexError (msg : string)
| OverflowError (msg : string).

Inductive result (A : Type) : Type :=
| Ok (a : A)
| Raise (e : exception).
Arguments Ok {A} a.
Arguments Raise {A} e.

(** The error monad: the first exception raised ends the computation. *)
#[global] Instance result_ret : MRet result := fun A a => Ok a.
#[global] Instance result_bind : MBind result := fun A B k r =>
  match r with
  | Ok a => k a
  | Raise e => Raise e
  end.

Fixpoint mapM {A B : Type} (f : A -> result B) (l : list A) : result (list B) :=
  match l with
  | [] => Ok []
  | a :: l' => b ← f a; bs ← mapM f l'; Ok (b :: bs)
  end.

Definition is_Ok {A : Type} (r : result A) : Prop :=
  match r with Ok _ => True | Raise _ => False end.

(** Python's [l[:k]]: the first [k] items, or, for a negative [k], all but
    the last [-k]; never an error. *)
Definition slice_to {A : Type} (k : Z) (l : list A) : list A :=
  if (k <? 0)%Z then take (length l - Z.to_nat (- k)) l
  else take (Z.to_nat k) l.

(* ================================================================= *)
(** ** torch *)

Module Torch.

(** A 1-dimensional tensor. *)
Definition Tensor1 : Type := list R.

(** A 2-dimensional tensor of shape [(length rows, ncols)]. *)
Record Tensor2 : Type := mkTensor2 {
  ncols : nat;
  rows : list (list R)
}.

(** A 3-dimensional tensor of shape [(length batches, group, feat)]. *)
Record Tensor3 : Type := mkTensor3 {
  group : nat;
  feat : nat;
  batches : list (list (list R))
}.

(** [t.unsqueeze(1)]: every row becomes a group of its own. *)
Definition unsqueeze1 (t : Tensor2) : Tensor3 :=
  {| group := 1; feat := ncols t; batches := map (fun r => [r]) (rows t) |}.

Definition size_mismatch : exception :=
  RuntimeError
    "The size of tensor a must match the size of tensor b at non-singleton dimension".

(** Elementwise [op] of two 1-dimensional tensors under torch's
    broadcasting rule: equal sizes, or one of them of size one. *)
Definition broadcast1 (op : R -> R -> R) (a b : list R) : result (list R) :=
  if decide (length a = length b) then Ok (zip_with op a b)
  else match a, b with
       | _, [y] => Ok (map (fun x => op x y) a)
       | [x], _ => Ok (map (op x) b)
       | _, _ => Raise size_mismatch
       end.

(** Elementwise [op] of a tensor of shape (n, D') and one of shape (D):
    the rule of [broadcast1] on the last dimension, whatever [n] is. *)
Definition broadcast2 (op : R -> R -> R) (t : Tensor2) (v : list R)
  : result Tensor2 :=
  if decide (ncols t = length v) then
    Ok {| ncols := ncols t; rows := map (fun r => zip_with op r v) (rows t) |}
  else match v with
       | [y] => Ok {| ncols := ncols t;
                      rows := map (map (fun x => op x y)) (rows t) |}
       | _ =>
         if decide (ncols t = 1) then
           Ok {| ncols := length v;
                 rows := map (fun r => map (op (hd 0%R r)) v) (rows t) |}
         else Raise size_mismatch
       end.

(** [torch.min(t, dim=0)[0]] and [torch.max(t, dim=0)[0]]: the minimum
    (maximum) of every column; an error when there is no row. *)
Definition reduce_dim0 (op : R -> R -> R) (name : string) (t : Tensor2)
  : result (list R) :=
  match rows t with
  | [] => Raise (IndexError (name ++ "(): Expected reduction dim 0 to have non-zero size."))
  | r :: rs => Ok (foldl (zip_with op) r rs)
  end.

Definition min_dim0 : Tensor2 -> result (list R) := reduce_dim0 Rmin "min".
Definition max_dim0 : Tensor2 -> result (list R) := reduce_dim0 Rmax "max".

Definition sum (y : Tensor1) : R := foldr Rplus 0%R y.

(** [torch.mean(y, dim=0)] of a 1-dimensional tensor. *)
Definition mean (y : Tensor1) : R := (sum y / INR (length y))%R.

(** [torch.std(y, dim=0)] of a 1-dimensional tensor: the sample standard
    deviation, with Bessel's correction (torch's default). *)
Definition std (y : Tensor1) : R :=
  sqrt (sum (map (fun v => (v - mean y) ^ 2)%R y) / (INR (length y) - 1))%R.

(** The contract of [torch.argsort(v, descending=True)], called without
    [stable=True]: the positions of [v], each once, listed by
    non-increasing value.  The order of positions that hold equal values
    is not part of it. *)
Definition ranks_descending (v : Tensor1) (ilocs : list nat) : Prop :=
  ilocs ≡ₚ seq 0 (length v) /\
  StronglySorted (fun i j => (nth j v 0 <= nth i v 0)%R) ilocs.

End Torch.

(* ================================================================= *)
(** ** pandas *)

Module Pandas.

(** A table of real numbers: every row has a label (its entry in
    [df.index]) and [df_ncols] values. *)
Record DataFrame (Label : Type) : Type := mkDataFrame {
  df_ncols : nat;
  df_rows : list (Label * list R)
}.
Arguments mkDataFrame {Label} df_ncols df_rows.
Arguments df_ncols {Label} d.
Arguments df_rows {Label} d.

Section Frame.
Context {Label : Type}.

(** [df.index] *)
Definition index (df : DataFrame Label) : list Label := map fst (df_rows df).

(** [df.values] *)
Definition values (df : DataFrame Label) : list (list R) := map snd (df_rows df).

(** [idx[positions]]: positional lookup with an array of positions. *)
Definition index_getitem (idx : list Label) (positions : list nat)
  : result (list Label) :=
  mapM (fun p => match idx !! p with
                 | Some a => Ok a
                 | None => Raise (IndexError "index is out of bounds for axis 0")
                 end) positions.

(** [df.sample(n=n)], without replacement: pandas refuses a negative [n]
    and hands the rest to numpy's [choice(population, size=n,
    replace=False)], which refuses to draw from nothing, converts [n] to a
    C integer (it must be below 2^63) and refuses [n] beyond the
    population.  [choice population n] stands for the positions its random
    generator draws.  A table has fewer than 2^63 rows, so that testing
    [n] against the population before its conversion shows no
    difference. *)
Definition sample (choice : nat -> nat -> list nat) (df : DataFrame Label) (n : Z)
  : result (DataFrame Label) :=
  if (n <? 0)%Z then
    Raise (ValueError "A negative number of rows requested. Please provide `n` >= 0.")
  else if decide (df_rows df = [] /\ n <> 0%Z) then
    Raise (ValueError "a must be greater than 0 unless no samples are taken")
  else if (n <=? Z.of_nat (length (df_rows df)))%Z then
    rs ← mapM (fun p => match df_rows df !! p with
                         | Some r => Ok r
                         | None => Raise (IndexError "indices are out-of-bounds")
                         end)
               (choice (length (df_rows df)) (Z.to_nat n));
    Ok {| df_ncols := df_ncols df; df_rows := rs |}
  else if (2 ^ 63 <=? n)%Z then
    Raise (OverflowError "Python int too large to convert to C long")
  else
    Raise (ValueError "Cannot take a larger sample than population when 'replace=False'").
End Frame.

End Pandas.

(* ================================================================= *)
(** ** baybe.utils *)

Module Utils.
Import Torch Pandas.

(** Modelled from the spec: [utils.to_tensor], which is not among the
    sources; the spec has it convert the table's "full numeric content
    into a dense numeric array". *)
Definition to_tensor {Label : Type} (df : DataFrame Label) : Tensor2 :=
  {| ncols := df_ncols df; rows := values df |}.

End Utils.

(* ================================================================= *)
(** ** baybe/recommender.py *)

Module Recommender.
Import Torch Pandas Utils.

(** botorch's [AcquisitionFunction]: from a tensor of shape
    (batch, group, D) to one score per batch element. *)
Definition AcquisitionFunction : Type := Tensor3 -> Tensor1.

(** [Recommender.__init__] *)
Record Recommender : Type := mkRecommender {
  acquisition_function : option AcquisitionFunction
}.

Section Recommend.
Context {Label : Type}.

(** [torch.argsort(_, descending=True)] *)
Variable argsort_descending : Tensor1 -> list nat.

(** [MarginalRankingRecommender.recommend] *)
Definition MarginalRankingRecommender_recommend
    (self : Recommender) (candidates : DataFrame Label) (batch_quantity : Z)
  : result (list Label) :=
  let candidates_tensor := unsqueeze1 (to_tensor candidates) in
  match acquisition_function self with
  | None => Raise (TypeError "'NoneType' object is not callable")
  | Some acqf =>
    let acqf_values := acqf candidates_tensor in
    let ilocs := argsort_descending acqf_values in
    index_getitem (index candidates) (slice_to batch_quantity ilocs)
  end.

(** numpy's draw of [n] positions out of [population] *)
Variable choice : nat -> nat -> list nat.

(** [RandomRecommender.recommend] *)
Definition RandomRecommender_recommend
    (self : Recommender) (candidates : DataFrame Label) (batch_quantity : Z)
  : result (list Label) :=
  s ← sample choice candidates batch_quantity;
  Ok (index s).
End Recommend.

End Recommender.

(* ================================================================= *)
(** ** Python classes and the subclass registries *)

Module Python.

(** A class object, as far as the registration hooks look at it:
    [cls_type] is what the attribute lookup [cls.type] finds ([None]
    when it fails: the bare annotation [type: str] of the base classes
    creates no attribute). *)
Record PyClass : Type := mkClass {
  cls_name : string;
  cls_bases : list string;
  cls_type : option string
}.

Definition no_type_attribute : exception :=
  AttributeError "type object has no attribute 'type'".

(** Running a module body: the class-level dictionary starts empty in
    the body of the base class (whose own definition calls no hook of
    its own), and every later class statement runs the hook it
    inherits, in the order of the file. *)
Definition run_class_statements
    (hook : gmap string PyClass -> PyClass -> result (gmap string PyClass))
    (subclasses : list PyClass) : result (gmap string PyClass) :=
  foldl (fun r cls => reg ← r; hook reg cls) (Ok ∅) subclasses.

End Python.

Module RecommenderRegistry.
Import Python.

Definition Recommender : PyClass :=
  {| cls_name := "Recommender"; cls_bases := ["ABC"]; cls_type := None |}.
Definition MarginalRankingRecommender : PyClass :=
  {| cls_name := "MarginalRankingRecommender"; cls_bases := ["Recommender"];
     cls_type := Some "UNRESTRICTED_RANKING" |}.
Definition RandomRecommender : PyClass :=
  {| cls_name := "RandomRecommender"; cls_bases := ["Recommender"];
     cls_type := Some "RANDOM" |}.

Section Hook.
(** [utils.isabstract], which is not among the sources. *)
Variable isabstract : PyClass -> bool.

(** [Recommender.__init_subclass__] *)
Definition init_subclass (SUBCLASSES : gmap string PyClass) (cls : PyClass)
  : result (gmap string PyClass) :=
  if negb (isabstract cls) then
    match cls_type cls with
    | Some t => Ok (<[t := cls]> SUBCLASSES)
    | None => Raise no_type_attribute
    end
  else Ok SUBCLASSES.

(** [Recommender.SUBCLASSES] once [recommender.py] is imported. *)
Definition module_registry : result (gmap string PyClass) :=
  run_class_statements init_subclass
    [MarginalRankingRecommender; RandomRecommender].
End Hook.

End RecommenderRegistry.

Module ScalerRegistry.
Import Python.

Definition Scaler : PyClass :=
  {| cls_name := "Scaler"; cls_bases := ["ABC"]; cls_type := None |}.
Definition DefaultScaler : PyClass :=
  {| cls_name := "DefaultScaler"; cls_bases := ["Scaler"];
     cls_type := Some "DEFAULT" |}.

(** [Scaler.__init_subclass__]: no test for abstract classes here. *)
Definition init_subclass (SUBCLASSES : gmap string PyClass) (cls : PyClass)
  : result (gmap string PyClass) :=
  match cls_type cls with
  | Some t => Ok (<[t := cls]> SUBCLASSES)
  | None => Raise no_type_attribute
  end.

(** [Scaler.SUBCLASSES] once [scaler.py] is imported. *)
Definition module_registry : result (gmap string PyClass) :=
  run_class_statements init_subclass [DefaultScaler].

End ScalerRegistry.

(* ================================================================= *)
(** ** baybe/scaler.py *)

Module Scaler.
Import Torch Pandas Utils.

(** [ScaleFun = Callable[[Tensor], Tensor]], at the two ranks in use:
    inputs are 2-dimensional (one row per experiment) and are combined
    with the per-column bounds, which can fail on the shapes; targets,
    means and variances are 1-dimensional and are combined with scalars. *)
Definition ScaleFunX : Type := Tensor2 -> result Tensor2.
Definition ScaleFunY : Type := Tensor1 -> Tensor1.

(** The attributes of a scaler object.  The six functions are only
    annotated by [__init__]: until a fit assigns them they do not exist
    ([None]). *)
Record Scaler (Label : Type) : Type := mkScaler {
  searchspace : DataFrame Label;
  fitted : bool;
  scale_x : option ScaleFunX;
  scale_y : option ScaleFunY;
  unscale_x : option ScaleFunX;
  unscale_y : option ScaleFunY;
  unscale_m : option ScaleFunY;
  unscale_s : option ScaleFunY
}.
Arguments mkScaler {Label}.
Arguments searchspace {Label} s.
Arguments fitted {Label} s.
Arguments scale_x {Label} s.
Arguments scale_y {Label} s.
Arguments unscale_x {Label} s.
Arguments unscale_y {Label} s.
Arguments unscale_m {Label} s.
Arguments unscale_s {Label} s.

Definition not_fitted : exception :=
  RuntimeError "Scaler object must be fitted first.".

Definition no_attribute (name : string) : exception :=
  AttributeError ("'DefaultScaler' object has no attribute '" ++ name ++ "'").

Section Methods.
Context {Label : Type}.

(** [Scaler.__init__] *)
Definition init (searchspace : DataFrame Label) : Scaler Label :=
  {| searchspace := searchspace; fitted := false;
     scale_x := None; scale_y := None;
     unscale_x := None; unscale_y := None;
     unscale_m := None; unscale_s := None |}.

(** [Scaler.transform] *)
Definition transform (self : Scaler Label) (x : Tensor2) : result Tensor2 :=
  if negb (fitted self) then Raise not_fitted
  else match scale_x self with
       | Some f => f x
       | None => Raise (no_attribute "scale_x")
       end.

(** [Scaler.untransform] *)
Definition untransform (self : Scaler Label) (mean variance : Tensor1)
  : result (Tensor1 * Tensor1) :=
  if negb (fitted self) then Raise not_fitted
  else match unscale_m self with
       | Some fm =>
         match unscale_s self with
         | Some fs => Ok (fm mean, fs variance)
         | None => Raise (no_attribute "unscale_s")
         end
       | None => Raise (no_attribute "unscale_m")
       end.

(** The six closures of [DefaultScaler.fit_transform], over the
    variables [bounds], [mean] and [std] of its body. *)
Section Closures.
Variable bounds : list R * list R.
Variables mean std : R.

Definition scale_x_fun : ScaleFunX := fun l =>
  d ← broadcast2 Rminus l (fst bounds);
  w ← broadcast1 Rminus (snd bounds) (fst bounds);
  broadcast2 Rdiv d w.
Definition scale_y_fun : ScaleFunY :=
  map (fun l => (l - mean) / std)%R.
Definition unscale_x_fun : ScaleFunX := fun l =>
  w ← broadcast1 Rminus (snd bounds) (fst bounds);
  p ← broadcast2 Rmult l w;
  broadcast2 Rplus p (fst bounds).
Definition unscale_y_fun : ScaleFunY :=
  map (fun l => l * std + mean)%R.
Definition unscale_m_fun : ScaleFunY :=
  map (fun l => l * std + mean)%R.
Definition unscale_s_fun : ScaleFunY :=
  map (fun l => l * std ^ 2)%R.
End Closures.

(** [DefaultScaler.fit_transform]: the object as the call leaves it,
    and what the call returns or raises. *)
Definition fit_transform (self : Scaler Label) (x : Tensor2) (y : Tensor1)
  : Scaler Label * result (Tensor2 * Tensor1) :=
  let searchspace_t := to_tensor (searchspace self) in
  match (lo ← min_dim0 searchspace_t;
         hi ← max_dim0 searchspace_t;
         Ok (lo, hi)) with
  | Raise e => (self, Raise e)
  | Ok bounds =>
    let mean := Torch.mean y in
    let std := Torch.std y in
    let self' :=
      {| searchspace := searchspace self;
         scale_x := Some (scale_x_fun bounds);
         scale_y := Some (scale_y_fun mean std);
         unscale_x := Some (unscale_x_fun bounds);
         unscale_y := Some (unscale_y_fun mean std);
         unscale_m := Some (unscale_m_fun mean std);
         unscale_s := Some (unscale_s_fun std);
         fitted := true |} in
    (self', sx ← scale_x_fun bounds x; Ok (sx, scale_y_fun mean std y))
  end.

(** Whenever the flag is set, the closures in use by [transform] and
    [untransform] are those of a fit. *)
Definition consistent (self : Scaler Label) : Prop :=
  fitted self = true ->
  exists bounds mean std,
    scale_x self = Some (scale_x_fun bounds) /\
    unscale_m self = Some (unscale_m_fun mean std) /\
    unscale_s self = Some (unscale_s_fun std).

(** A scaler after [__init__] and a series of [fit_transform] calls. *)
Definition refit (self : Scaler Label) (fits : list (Tensor2 * Tensor1))
  : Scaler Label :=
  foldl (fun s xy => fst (fit_transform s xy.1 xy.2)) self fits.

(** Some call of the series returned (raised nothing). *)
Fixpoint some_fit_returned (self : Scaler Label) (fits : list (Tensor2 * Tensor1))
  : Prop :=
  match fits with
  | [] => False
  | xy :: rest =>
    is_Ok (snd (fit_transform self xy.1 xy.2)) \/
    some_fit_returned (fst (fit_transform self xy.1 xy.2)) rest
  end.
End Methods.

End Scaler.

(* ================================================================= *)
(** ** Example data *)

Module Examples.
Import Torch Pandas.

(** An experiment space with a single feature: one row per labelled
    value. *)
Definition one_feature_space {Label : Type} (points : list (Label * R))
  : DataFrame Label :=
  {| df_ncols := 1; df_rows := map (fun p => (p.1, [p.2])) points |}.

(** Three candidates with one feature; the last two are equal. *)
Definition tied_candidates : DataFrame string :=
  one_feature_space [("a", 3%R); ("b", 7%R); ("c", 7%R)].

(** A scoring function: the score of a group is the first feature of its
    first member. *)
Definition first_feature : Recommender.AcquisitionFunction :=
  fun t => map (fun g => hd 0%R (hd [] g)) (batches t).

(** A space whose feature ranges over [0, 10], and training inputs in it. *)
Definition unit_to_ten : DataFrame string :=
  one_feature_space [("lo", 0%R); ("mid", 5%R); ("hi", 10%R)].
Definition three_inputs : Tensor2 :=
  {| ncols := 1; rows := [[0%R]; [5%R]; [10%R]] |}.

(** A space with two features, an input with three columns and one with
    two. *)
Definition two_feature_space : DataFrame string :=
  {| df_ncols := 2; df_rows := [("e0", [0%R; 0%R]); ("e1", [1%R; 2%R])] |}.
Definition three_columns : Tensor2 :=
  {| ncols := 3; rows := [[1%R; 2%R; 3%R]] |}.
Definition two_columns : Tensor2 :=
  {| ncols := 2; rows := [[1%R; 1%R]] |}.

(** Seventeen candidates, labelled by their position, with the same
    feature. *)
Definition seventeen_tied : DataFrame nat :=
  one_feature_space (map (fun i => (i, 0%R)) (seq 0 17)).

(** A table without candidates. *)
Definition no_candidates : DataFrame string :=
  {| df_ncols := 1; df_rows := [] |}.

(** A test for abstract classes: the class derives from [ABC] directly. *)
Definition derives_from_ABC (cls : Python.PyClass) : bool :=
  bool_decide ("ABC" ∈ Python.cls_bases cls).

End Examples.

(* ================================================================= *)
(** ** The C++ library's [std::sort] *)

(** [std::sort] of libstdc++ on an array of positions: introsort.  Ranges
    of more than 16 items are partitioned around the median of their
    first, middle and last item; what is left is finished by an insertion
    sort.  After [2 * log2 n] levels of partitioning the library turns to
    heap sort: this is not modelled, [sort] is [None] there. *)
Module StdSort.
Section Sort.
(** [comp x y]: item [x] goes before item [y]. *)
Variable comp : nat -> nat -> bool.

Definition get (a : list nat) (i : nat) : nat := nth i a 0.

Definition iter_swap (a : list nat) (i j : nat) : list nat :=
  <[i := get a j]> (<[j := get a i]> a).

Definition move_median_to_first (a : list nat) (result x y z : nat) : list nat :=
  if comp (get a x) (get a y) then
    if comp (get a y) (get a z) then iter_swap a result y
    else if comp (get a x) (get a z) then iter_swap a result z
    else iter_swap a result x
  else if comp (get a x) (get a z) then iter_swap a result x
  else if comp (get a y) (get a z) then iter_swap a result z
  else iter_swap a result y.

(** [while (comp(first, pivot)) ++first] *)
Fixpoint scan_up (fuel : nat) (a : list nat) (first pivot : nat) : nat :=
  match fuel with
  | 0 => first
  | S fuel' =>
    if comp (get a first) (get a pivot) then scan_up fuel' a (S first) pivot
    else first
  end.

(** [while (comp(pivot, last)) --last] *)
Fixpoint scan_down (fuel : nat) (a : list nat) (last pivot : nat) : nat :=
  match fuel with
  | 0 => last
  | S fuel' =>
    if comp (get a pivot) (get a last) then scan_down fuel' a (last - 1) pivot
    else last
  end.

Fixpoint unguarded_partition (fuel : nat) (a : list nat) (first last pivot : nat)
  : list nat * nat :=
  match fuel with
  | 0 => (a, first)
  | S fuel' =>
    let first' := scan_up (length a) a first pivot in
    let last' := scan_down (length a) a (last - 1) pivot in
    if first' <? last'
    then unguarded_partition fuel' (iter_swap a first' last') (S first') last' pivot
    else (a, first')
  end.

Definition unguarded_partition_pivot (a : list nat) (first last : nat)
  : list nat * nat :=
  let mid := first + (last - first) / 2 in
  let a' := move_median_to_first a first (first + 1) mid (last - 1) in
  unguarded_partition (length a) a' (first + 1) last first.

Fixpoint introsort_loop (fuel : nat) (a : list nat) (first last depth_limit : nat)
  : option (list nat) :=
  match fuel with
  | 0 => None
  | S fuel' =>
    if 16 <? last - first then
      match depth_limit with
      | 0 => None
      | S depth_limit' =>
        let (a', cut) := unguarded_partition_pivot a first last in
        a'' ← introsort_loop fuel' a' cut last depth_limit';
        introsort_loop fuel' a'' first cut depth_limit'
      end
    else Some a
  end.

Fixpoint unguarded_linear_insert (fuel : nat) (a : list nat) (last val : nat)
  : list nat :=
  match fuel, last with
  | S fuel', S next =>
    if comp val (get a next)
    then unguarded_linear_insert fuel' (<[last := get a next]> a) next val
    else <[last := val]> a
  | _, _ => <[last := val]> a
  end.

(** One round of [__insertion_sort]: item [i] goes to the front of the
    range, or is inserted backwards from its place. *)
Definition insertion_step (first : nat) (a : list nat) (i : nat) : list nat :=
  if comp (get a i) (get a first)
  then take first a ++ get a i :: take (i - first) (drop first a) ++ drop (S i) a
  else unguarded_linear_insert (length a) a i (get a i).

Definition insertion_sort (a : list nat) (first last : nat) : list nat :=
  foldl (insertion_step first) a (seq (S first) (last - S first)).

Definition unguarded_insertion_sort (a : list nat) (first last : nat) : list nat :=
  foldl (fun a i => unguarded_linear_insert (length a) a i (get a i)) a
        (seq first (last - first)).

Definition final_insertion_sort (a : list nat) (first last : nat) : list nat :=
  if 16 <? last - first
  then unguarded_insertion_sort (insertion_sort a first (first + 16))
                                (first + 16) last
  else insertion_sort a first last.

Definition sort (a : list nat) : option (list nat) :=
  match a with
  | [] => Some []
  | _ =>
    a' ← introsort_loop (S (length a)) a 0 (length a) (Nat.log2 (length a) * 2);
    Some (final_insertion_sort a' 0 (length a))
  end.
End Sort.
End StdSort.

(* ================================================================= *)
(** ** Sort routines within the contract of [torch.argsort] *)

Module Argsort.
Import Torch.

#[global] Instance Rlt_decision (a b : R) : Decision (a < b)%R := Rlt_dec a b.
#[global] Instance Rle_decision (a b : R) : Decision (a <= b)%R := Rle_dec a b.

(** Insert position [i] into a ranking of positions of [v]: it goes
    behind every position whose value [passes] its own. *)
Fixpoint insert_rank (passes : R -> R -> bool) (v : Tensor1) (i : nat)
    (ranking : list nat) : list nat :=
  match ranking with
  | [] => [i]
  | j :: rest =>
    if passes (nth j v 0%R) (nth i v 0%R)
    then j :: insert_rank passes v i rest
    else i :: ranking
  end.

Definition argsort_by (passes : R -> R -> bool) (v : Tensor1) : list nat :=
  foldr (insert_rank passes v) [] (seq 0 (length v)).

(** Equal values stay in the order of their positions. *)
Definition argsort_stable : Tensor1 -> list nat :=
  argsort_by (fun a b => bool_decide (b < a)%R).

(** The order [torch.argsort(v, descending=True)] gives on a CPU when
    [stable=True] is not asked for: that of [std::sort] over the positions,
    under the comparator "the value is greater".  [None] where
    [StdSort.sort] is. *)
Definition std_argsort_descending (v : Tensor1) : option (list nat) :=
  StdSort.sort (fun i j => bool_decide (nth j v 0 < nth i v 0)%R)
               (seq 0 (length v)).

Definition argsort_cpu (v : Tensor1) : list nat :=
  default [] (std_argsort_descending v).

(** Settle the comparisons of numerals that a sort routine makes. *)
Ltac compare_scores :=
  repeat (first [ rewrite bool_decide_eq_true_2 by lra
                | rewrite bool_decide_eq_false_2 by lra ]; cbn).

(** The same where comparisons are nested: settle an innermost one. *)
Ltac settle_comparison :=
  match goal with
  | |- context [bool_decide (?a < ?b)%R] =>
    first [ rewrite (bool_decide_eq_true_2 (a < b)%R) by lra
          | rewrite (bool_decide_eq_false_2 (a < b)%R) by lra ]
  end.

End Argsort.

(* ================================================================= *)
(** ** Shapes and the contract of numpy's random draw *)

Module Contracts.
Import Torch.

(** A tensor of shape (n, ncols): every row has [ncols] entries. *)
Definition well_shaped (t : Tensor2) : Prop :=
  Forall (fun row => length row = ncols t) (rows t).

(** The contract of numpy's [choice(population, size=n, replace=False)]:
    [n] positions of the population, each at most once. *)
Definition draws_without_replacement (choice : nat -> nat -> list nat) : Prop :=
  forall population n, n <= population ->
    length (choice population n) = n /\
    NoDup (choice population n) /\
    Forall (fun p => p < population) (choice population n).

(** A draw within the contract: the first [n] positions. *)
Definition first_positions (population n : nat) : list nat := seq 0 n.

End Contracts.


(* ================================================================= *)
(** * Properties *)

(** ** Lists, slices and positional lookup *)

Section ListFacts.
Context {A : Type}.

Lemma slice_to_nonneg (k : Z) (l : list A) :
  (0 <= k)%Z -> slice_to k l = take (Z.to_nat k) l.
Proof.
  intros Hk. unfold slice_to.
  destruct (Z.ltb_spec k 0) as [Hneg | _]; [lia | reflexivity].
Qed.

Lemma slice_to_beyond (k : Z) (l : list A) :
  (Z.of_nat (length l) <= k)%Z -> slice_to k l = l.
Proof.
  intros Hk. rewrite slice_to_nonneg by lia.
  apply take_ge. lia.
Qed.

Lemma index_getitem_in_range (idx : list A) (positions : list nat) :
  Forall (fun p => p < length idx) positions ->
  exists ids, Pandas.index_getitem idx positions = Ok ids /\
              Forall2 (fun p a => idx !! p = Some a) positions ids.
Proof.
  induction 1 as [| p ps Hp _ [ids [Hids Hall]]].
  - exists []. split; [reflexivity | constructor].
  - destruct (lookup_lt_is_Some_2 idx p Hp) as [a Ha].
    exists (a :: ids). split.
    + unfold Pandas.index_getitem in *. cbn. rewrite Ha. cbn.
      rewrite Hids. reflexivity.
    + constructor; assumption.
Qed.

(** Looking up every position once gives every label once. *)
Lemma lookup_all_positions (idx ids : list A) (positions : list nat) :
  positions ≡ₚ seq 0 (length idx) ->
  Forall2 (fun p a => idx !! p = Some a) positions ids ->
  ids ≡ₚ idx.
Proof.
  intros Hperm Hall.
  assert (Hids : ids = omap (fun p => idx !! p) positions).
  { clear Hperm. induction Hall as [| p a ps ids' Hpa _ IH]; [reflexivity |].
    cbn. rewrite Hpa. cbn. congruence. }
  rewrite Hids, Hperm. clear.
  assert (Hshift : forall pre l : list A,
             omap (fun p => (pre ++ l) !! p) (seq (length pre) (length l)) = l).
  { intros pre l. revert pre.
    induction l as [| a l IH]; intros pre; [reflexivity |].
    cbn. rewrite list_lookup_middle by reflexivity. cbn. f_equal.
    specialize (IH (pre ++ [a])).
    rewrite <- app_assoc, length_app, Nat.add_1_r in IH. exact IH. }
  exact (eq_ind _ (fun l => l ≡ₚ idx) (reflexivity idx) _ (eq_sym (Hshift [] idx))).
Qed.

End ListFacts.

(** ** Rankings *)

Section RankingFacts.
Context {A : Type} (R : A -> A -> Prop).

(** In a ranking, whatever is among the first [k] is related to whatever
    comes after them. *)
Lemma ranking_take_drop (l : list A) (k : nat) (a b : A) :
  StronglySorted R l -> a ∈ take k l -> b ∈ drop k l -> R a b.
Proof.
  intros Hsorted. revert k.
  induction Hsorted as [| x l Hl IH Hx]; intros k Ha Hb.
  - rewrite take_nil in Ha. inversion Ha.
  - destruct k as [| k]; [inversion Ha |].
    cbn in Ha, Hb. apply elem_of_cons in Ha as [-> | Ha].
    + apply (Forall_drop _ k) in Hx.
      rewrite Forall_forall in Hx. apply Hx. assumption.
    + eapply IH; eassumption.
Qed.

Lemma ranking_take (l : list A) (k : nat) :
  StronglySorted R l -> StronglySorted R (take k l).
Proof.
  intros Hsorted. revert k.
  induction Hsorted as [| x l Hl IH Hx]; intros [| k]; cbn; try constructor.
  - apply IH.
  - apply Forall_take. assumption.
Qed.

End RankingFacts.

(** ** The insertion sorts meet the contract of [torch.argsort] *)

Section ArgsortFacts.
Import Torch Argsort.
Variable passes : R -> R -> bool.
Variable v : Tensor1.
Hypothesis passes_true : forall a b, passes a b = true -> (b <= a)%R.
Hypothesis passes_false : forall a b, passes a b = false -> (a <= b)%R.

Abbreviation descending := (fun i j : nat => (nth j v 0 <= nth i v 0)%R).

Lemma insert_rank_perm (i : nat) (ranking : list nat) :
  insert_rank passes v i ranking ≡ₚ i :: ranking.
Proof.
  induction ranking as [| j rest IH]; cbn; [reflexivity |].
  destruct (passes _ _); [| reflexivity].
  rewrite IH. apply Permutation_swap.
Qed.

Lemma insert_rank_sorted (i : nat) (ranking : list nat) :
  StronglySorted descending ranking ->
  StronglySorted descending (insert_rank passes v i ranking).
Proof.
  induction 1 as [| j rest Hrest IH Hj]; cbn.
  - repeat constructor.
  - destruct (passes (nth j v 0%R) (nth i v 0%R)) eqn:Hpass.
    + constructor; [exact IH |].
      rewrite insert_rank_perm. constructor; [| exact Hj].
      apply passes_true. exact Hpass.
    + apply passes_false in Hpass.
      constructor; [constructor; assumption |].
      constructor; [exact Hpass |].
      eapply Forall_impl; [exact Hj |].
      intros k Hk. cbn in Hk. lra.
Qed.

Lemma argsort_by_ranks : ranks_descending v (argsort_by passes v).
Proof.
  unfold ranks_descending, argsort_by.
  generalize (seq 0 (length v)) as positions.
  induction positions as [| i positions [IHperm IHsorted]]; cbn.
  - split; [reflexivity | constructor].
  - split.
    + rewrite insert_rank_perm, IHperm. reflexivity.
    + apply insert_rank_sorted. exact IHsorted.
Qed.

End ArgsortFacts.

Lemma argsort_stable_ranks (v : Torch.Tensor1) :
  Torch.ranks_descending v (Argsort.argsort_stable v).
Proof.
  apply argsort_by_ranks; intros a b Hab.
  - apply bool_decide_eq_true in Hab. lra.
  - apply bool_decide_eq_false in Hab. lra.
Qed.

(** ** MarginalRankingRecommender *)

Section MarginalRanking.
Import Torch Pandas Utils Recommender.
Context {Label : Type}.
Variable argsort : Tensor1 -> list nat.
Hypothesis argsort_ranks : forall v, ranks_descending v (argsort v).

Lemma argsort_length (v : Tensor1) : length (argsort v) = length v.
Proof.
  destruct (argsort_ranks v) as [Hperm _].
  rewrite Hperm. apply length_seq.
Qed.

Lemma argsort_NoDup (v : Tensor1) : NoDup (argsort v).
Proof.
  destruct (argsort_ranks v) as [Hperm _].
  rewrite Hperm. apply NoDup_seq.
Qed.

Lemma argsort_elem_of (v : Tensor1) (p : nat) : p ∈ argsort v <-> p < length v.
Proof.
  destruct (argsort_ranks v) as [Hperm _].
  rewrite Hperm, elem_of_seq. lia.
Qed.

Lemma recommend_some (acqf : AcquisitionFunction) (T : DataFrame Label) (bq : Z) :
  MarginalRankingRecommender_recommend argsort
    {| acquisition_function := Some acqf |} T bq
  = index_getitem (index T)
      (slice_to bq (argsort (acqf (unsqueeze1 (to_tensor T))))).
Proof. reflexivity. Qed.

(** C4: for every table, every scoring function that returns one score per
    candidate and every batch size between 1 and the pool size, the
    scoring function is applied once, to the table with every candidate as
    a group of its own; the call returns [batch_quantity] identifiers,
    those at the first [batch_quantity] positions of the ranking by
    descending score, looked up by position in the table's index; no
    position is selected twice, and no candidate left out has a higher
    score than a selected one.  This holds for every sort routine within
    the contract of [torch.argsort]. *)
Theorem marginal_ranking_selects_top
    (acqf : AcquisitionFunction) (T : DataFrame Label) (bq : Z) :
  length (acqf (unsqueeze1 (to_tensor T))) = length (df_rows T) ->
  (1 <= bq <= Z.of_nat (length (df_rows T)))%Z ->
  (group (unsqueeze1 (to_tensor T)) = 1 /\
   batches (unsqueeze1 (to_tensor T)) = map (fun r => [r.2]) (df_rows T)) /\
  exists ilocs ids,
    MarginalRankingRecommender_recommend argsort
      {| acquisition_function := Some acqf |} T bq = Ok ids /\
    ilocs = take (Z.to_nat bq) (argsort (acqf (unsqueeze1 (to_tensor T)))) /\
    length ilocs = Z.to_nat bq /\
    length ids = Z.to_nat bq /\
    NoDup ilocs /\
    Forall2 (fun p a => index T !! p = Some a) ilocs ids /\
    StronglySorted
      (fun i j => (nth j (acqf (unsqueeze1 (to_tensor T))) 0
                   <= nth i (acqf (unsqueeze1 (to_tensor T))) 0)%R) ilocs /\
    (forall p q, p ∈ ilocs -> q < length (df_rows T) -> q ∉ ilocs ->
       (nth q (acqf (unsqueeze1 (to_tensor T))) 0
        <= nth p (acqf (unsqueeze1 (to_tensor T))) 0)%R).
Proof.
  intros Hlen Hbq. split.
  { split; [reflexivity |].
    cbn. unfold values. rewrite map_map. reflexivity. }
  set (scores := acqf (unsqueeze1 (to_tensor T))) in *.
  destruct (argsort_ranks scores) as [Hperm Hsorted].
  assert (Hrange : Forall (fun p => p < length (index T))
                          (take (Z.to_nat bq) (argsort scores))).
  { apply Forall_take, Forall_forall. intros p Hp.
    apply argsort_elem_of in Hp. unfold index. rewrite length_map. lia. }
  destruct (index_getitem_in_range _ _ Hrange) as [ids [Hids Hall]].
  assert (Htake : length (take (Z.to_nat bq) (argsort scores)) = Z.to_nat bq).
  { rewrite length_take, argsort_length. lia. }
  exists (take (Z.to_nat bq) (argsort scores)), ids.
  split; [| split; [reflexivity | split; [exact Htake | split; [| split; [| split; [exact Hall | split]]]]]].
  - rewrite recommend_some, slice_to_nonneg by lia. exact Hids.
  - rewrite <- (Forall2_length _ _ _ Hall). exact Htake.
  - eapply sublist_NoDup; [apply argsort_NoDup | apply sublist_take].
  - apply ranking_take. exact Hsorted.
  - intros p q Hp Hq Hnq.
    apply (ranking_take_drop _ (argsort scores) (Z.to_nat bq) p q Hsorted Hp).
    assert (Hin : q ∈ argsort scores) by (apply argsort_elem_of; lia).
    rewrite <- (take_drop (Z.to_nat bq) (argsort scores)) in Hin.
    apply elem_of_app in Hin as [Hin | Hin]; [contradiction | exact Hin].
Qed.

(** C5: for every table and every scoring function that returns one score
    per candidate, a batch size beyond the pool size is no error: the call
    returns the whole ranked pool, every identifier of the table once. *)
Theorem marginal_ranking_beyond_pool
    (acqf : AcquisitionFunction) (T : DataFrame Label) (bq : Z) :
  length (acqf (unsqueeze1 (to_tensor T))) = length (df_rows T) ->
  (Z.of_nat (length (df_rows T)) < bq)%Z ->
  exists ids,
    MarginalRankingRecommender_recommend argsort
      {| acquisition_function := Some acqf |} T bq = Ok ids /\
    Forall2 (fun p a => index T !! p = Some a)
            (argsort (acqf (unsqueeze1 (to_tensor T)))) ids /\
    ids ≡ₚ index T.
Proof.
  intros Hlen Hbq.
  set (scores := acqf (unsqueeze1 (to_tensor T))) in *.
  destruct (argsort_ranks scores) as [Hperm _].
  assert (Hidx : length (index T) = length scores).
  { unfold index. rewrite length_map. symmetry. exact Hlen. }
  assert (Hrange : Forall (fun p => p < length (index T)) (argsort scores)).
  { apply Forall_forall. intros p Hp. apply argsort_elem_of in Hp. lia. }
  destruct (index_getitem_in_range _ _ Hrange) as [ids [Hids Hall]].
  exists ids. split; [| split; [exact Hall |]].
  - rewrite recommend_some, slice_to_beyond; [exact Hids |].
    rewrite argsort_length. subst scores. lia.
  - eapply lookup_all_positions; [| exact Hall].
    rewrite Hidx. exact Hperm.
Qed.

End MarginalRanking.

(** ** Ties in the ranking *)

Section MarginalRankingTies.
Import Torch Pandas Utils Recommender.
Context {Label : Type}.

(** Two rankings of the same scores list the same scores. *)
Lemma ranked_scores_unique (v : Tensor1) (ilocs ilocs' : list nat) :
  ranks_descending v ilocs -> ranks_descending v ilocs' ->
  map (fun p => nth p v 0%R) ilocs = map (fun p => nth p v 0%R) ilocs'.
Proof.
  intros [Hperm Hsorted] [Hperm' Hsorted'].
  apply (StronglySorted_unique_strong (fun a b : R => (b <= a)%R)).
  - intros a b _ _ Hab Hba. lra.
  - eapply StronglySorted_fmap; [| exact Hsorted]. intros i j Hij. exact Hij.
  - eapply StronglySorted_fmap; [| exact Hsorted']. intros i j Hij. exact Hij.
  - apply fmap_Permutation. rewrite Hperm, Hperm'. reflexivity.
Qed.

(** Without equal scores there is one ranking only. *)
Lemma ranking_unique (v : Tensor1) (ilocs ilocs' : list nat) :
  NoDup v -> ranks_descending v ilocs -> ranks_descending v ilocs' ->
  ilocs = ilocs'.
Proof.
  intros Hv [Hperm Hsorted] [Hperm' Hsorted'].
  apply (StronglySorted_unique_strong
           (fun i j : nat => (nth j v 0 <= nth i v 0)%R));
    [| exact Hsorted | exact Hsorted' | rewrite Hperm, Hperm'; reflexivity].
  intros i j Hi Hj Hij Hji.
  rewrite Hperm in Hi. rewrite Hperm' in Hj.
  apply elem_of_seq in Hi. apply elem_of_seq in Hj.
  destruct (lookup_lt_is_Some_2 v i) as [a Ha]; [lia |].
  destruct (lookup_lt_is_Some_2 v j) as [b Hb]; [lia |].
  rewrite (nth_lookup_Some _ _ 0%R _ Ha), (nth_lookup_Some _ _ 0%R _ Hb) in Hij, Hji.
  assert (a = b) by lra. subst b.
  exact (NoDup_lookup v i j a Hv Ha Hb).
Qed.

Variables argsort argsort' : Tensor1 -> list nat.
Hypothesis argsort_ranks : forall v, ranks_descending v (argsort v).
Hypothesis argsort_ranks' : forall v, ranks_descending v (argsort' v).

(** C1, as the code has it: whatever order [torch.argsort] gives to equal
    values, the call returns the identifiers at the selected positions of
    its ranking, as many under one order as under another, and the scores
    of the selected candidates, in the order of the selection, are the
    same; when no two candidates have the same score, the selection itself
    is the same.  So the selection is reproducible up to which of several
    candidates of equal score are taken, and in which order: that is as
    [torch.argsort] returns them. *)
Theorem marginal_ranking_determined_up_to_ties
    (acqf : AcquisitionFunction) (T : DataFrame Label) (bq : Z) :
  length (acqf (unsqueeze1 (to_tensor T))) = length (df_rows T) ->
  exists ids ids',
    MarginalRankingRecommender_recommend argsort
      {| acquisition_function := Some acqf |} T bq = Ok ids /\
    MarginalRankingRecommender_recommend argsort'
      {| acquisition_function := Some acqf |} T bq = Ok ids' /\
    Forall2 (fun p a => index T !! p = Some a)
            (slice_to bq (argsort (acqf (unsqueeze1 (to_tensor T))))) ids /\
    Forall2 (fun p a => index T !! p = Some a)
            (slice_to bq (argsort' (acqf (unsqueeze1 (to_tensor T))))) ids' /\
    length ids = length ids' /\
    map (fun p => nth p (acqf (unsqueeze1 (to_tensor T))) 0%R)
        (slice_to bq (argsort (acqf (unsqueeze1 (to_tensor T)))))
    = map (fun p => nth p (acqf (unsqueeze1 (to_tensor T))) 0%R)
          (slice_to bq (argsort' (acqf (unsqueeze1 (to_tensor T))))) /\
    (NoDup (acqf (unsqueeze1 (to_tensor T))) -> ids = ids').
Proof.
  intros Hlen. rewrite !recommend_some.
  set (scores := acqf (unsqueeze1 (to_tensor T))) in *.
  assert (Hidx : length (index T) = length scores).
  { unfold index. rewrite length_map. symmetry. exact Hlen. }
  assert (Hslices : exists k, slice_to bq (argsort scores) = take k (argsort scores)
                              /\ slice_to bq (argsort' scores) = take k (argsort' scores)).
  { unfold slice_to.
    rewrite (argsort_length argsort argsort_ranks),
            (argsort_length argsort' argsort_ranks').
    destruct (_ <? _)%Z; eauto. }
  destruct Hslices as [k [-> ->]].
  assert (Hrange : forall sort, (forall v, ranks_descending v (sort v)) ->
            Forall (fun p => p < length (index T)) (take k (sort scores))).
  { intros sort Hsort. apply Forall_take, Forall_forall. intros p Hp.
    apply (argsort_elem_of sort Hsort) in Hp. rewrite Hidx. exact Hp. }
  destruct (index_getitem_in_range _ _ (Hrange argsort argsort_ranks))
    as [ids [Hids Hall]].
  destruct (index_getitem_in_range _ _ (Hrange argsort' argsort_ranks'))
    as [ids' [Hids' Hall']].
  exists ids, ids'.
  split; [exact Hids | split; [exact Hids' | split; [exact Hall | split; [exact Hall' |]]]].
  split; [| split].
  - rewrite <- (Forall2_length _ _ _ Hall), <- (Forall2_length _ _ _ Hall').
    rewrite !length_take.
    rewrite (argsort_length argsort argsort_ranks),
            (argsort_length argsort' argsort_ranks'). reflexivity.
  - change (map ?f (take k ?l)) with (f <$> take k l).
    rewrite !fmap_take. f_equal.
    apply ranked_scores_unique; [apply argsort_ranks | apply argsort_ranks'].
  - intros Hunique.
    rewrite (ranking_unique scores (argsort scores) (argsort' scores) Hunique
               (argsort_ranks scores) (argsort_ranks' scores)) in Hids.
    congruence.
Qed.

End MarginalRankingTies.

Section MarginalRankingSlice.
Import Torch Pandas Utils Recommender.
Context {Label : Type}.

(** C10: with [batch_quantity = 0] the slice of the ranking is empty and
    the call returns the empty selection, whatever the table, the scoring
    function and the order [torch.argsort] gives. *)
Theorem marginal_ranking_zero_batch
    (argsort : Tensor1 -> list nat) (acqf : AcquisitionFunction)
    (T : DataFrame Label) :
  MarginalRankingRecommender_recommend argsort
    {| acquisition_function := Some acqf |} T 0 = Ok [] /\
  slice_to 0 (argsort (acqf (unsqueeze1 (to_tensor T)))) = [].
Proof.
  split.
  - unfold MarginalRankingRecommender_recommend. cbn.
    unfold slice_to. cbn. reflexivity.
  - reflexivity.
Qed.

End MarginalRankingSlice.

(** ** RandomRecommender *)

Section RandomSampling.
Import Torch Pandas Utils Recommender.
Context {Label : Type}.

(** C3, as the code has it: a batch size beyond the pool size makes
    [DataFrame.sample] fail, whatever the random generator would draw, and
    no truncated selection is returned.  What is raised is ValueError, from
    numpy's [choice]: on a table with candidates "Cannot take a larger
    sample than population", on one without "a must be greater than 0";
    from the batch size 2^63 on, on a table with candidates, it is
    OverflowError, raised before any sampling. *)
Theorem random_recommend_beyond_pool_raises
    (choice : nat -> nat -> list nat) (self : Recommender)
    (T : DataFrame Label) (bq : Z) :
  (Z.of_nat (length (df_rows T)) < bq)%Z ->
  (exists e, RandomRecommender_recommend choice self T bq = Raise e) /\
  (df_rows T = [] ->
   RandomRecommender_recommend choice self T bq
   = Raise (ValueError "a must be greater than 0 unless no samples are taken")) /\
  (df_rows T <> [] -> (bq < 2 ^ 63)%Z ->
   RandomRecommender_recommend choice self T bq
   = Raise (ValueError
       "Cannot take a larger sample than population when 'replace=False'")) /\
  (df_rows T <> [] -> (2 ^ 63 <= bq)%Z ->
   RandomRecommender_recommend choice self T bq
   = Raise (OverflowError "Python int too large to convert to C long")).
Proof.
  intros Hbq. unfold RandomRecommender_recommend, sample.
  destruct (Z.ltb_spec bq 0) as [Hneg | _]; [lia |].
  destruct (Z.leb_spec bq (Z.of_nat (length (df_rows T)))) as [Hle | _]; [lia |].
  destruct (decide (df_rows T = [] /\ bq <> 0%Z)) as [[Hempty _] | Hnot].
  - split; [eexists; reflexivity |].
    split; [reflexivity |]. split; intros Hrows; contradiction.
  - assert (Hrows : df_rows T <> []).
    { intros Hempty. apply Hnot. split; [exact Hempty |].
      rewrite Hempty in Hbq. cbn in Hbq. lia. }
    destruct (Z.leb_spec (2 ^ 63) bq) as [Hbig | Hsmall].
    + split; [eexists; reflexivity |].
      split; [intros Hempty; contradiction |].
      split; [intros _ Hlt; lia | reflexivity].
    + split; [eexists; reflexivity |].
      split; [intros Hempty; contradiction |].
      split; [reflexivity | intros _ Hge; lia].
Qed.

End RandomSampling.

(** ** Scaler *)

Section ScalerFacts.
Import Torch Pandas Utils Scaler.
Context {Label : Type}.
Implicit Types (self s : Scaler.Scaler Label) (x : Tensor2) (y : Tensor1).

(** The per-column bounds exist as soon as the space has a row. *)
Lemma bounds_of_space (sp : DataFrame Label) :
  df_rows sp <> [] ->
  exists lo hi, min_dim0 (to_tensor sp) = Ok lo /\ max_dim0 (to_tensor sp) = Ok hi.
Proof.
  intros Hrows. unfold min_dim0, max_dim0, reduce_dim0, to_tensor, values. cbn.
  destruct (df_rows sp) as [| r rs]; [contradiction |]. cbn. eauto.
Qed.

Lemma no_bounds_of_empty_space (sp : DataFrame Label) :
  df_rows sp = [] ->
  min_dim0 (to_tensor sp)
  = Raise (IndexError "min(): Expected reduction dim 0 to have non-zero size.").
Proof.
  intros Hrows. unfold min_dim0, reduce_dim0, to_tensor, values. cbn.
  rewrite Hrows. reflexivity.
Qed.

(** What a call of [fit_transform] does, by whether the space has a row. *)
Lemma fit_transform_empty_space self x y :
  df_rows (searchspace self) = [] ->
  fit_transform self x y
  = (self, Raise (IndexError "min(): Expected reduction dim 0 to have non-zero size.")).
Proof.
  intros Hrows. unfold fit_transform.
  rewrite (no_bounds_of_empty_space _ Hrows). reflexivity.
Qed.

Lemma fit_transform_stores self x y :
  df_rows (searchspace self) <> [] ->
  exists lo hi,
    min_dim0 (to_tensor (searchspace self)) = Ok lo /\
    max_dim0 (to_tensor (searchspace self)) = Ok hi /\
    fit_transform self x y
    = ({| searchspace := searchspace self;
          fitted := true;
          scale_x := Some (scale_x_fun (lo, hi));
          scale_y := Some (scale_y_fun (mean y) (std y));
          unscale_x := Some (unscale_x_fun (lo, hi));
          unscale_y := Some (unscale_y_fun (mean y) (std y));
          unscale_m := Some (unscale_m_fun (mean y) (std y));
          unscale_s := Some (unscale_s_fun (std y)) |},
       sx ← scale_x_fun (lo, hi) x; Ok (sx, scale_y_fun (mean y) (std y) y)).
Proof.
  intros Hrows.
  destruct (bounds_of_space _ Hrows) as [lo [hi [Hlo Hhi]]].
  exists lo, hi. split; [exact Hlo | split; [exact Hhi |]].
  unfold fit_transform. rewrite Hlo, Hhi. reflexivity.
Qed.

Lemma fit_transform_searchspace self x y :
  searchspace (fit_transform self x y).1 = searchspace self.
Proof.
  destruct (decide (df_rows (searchspace self) = [])) as [Hrows | Hrows].
  - rewrite (fit_transform_empty_space _ _ _ Hrows). reflexivity.
  - destruct (fit_transform_stores self x y Hrows) as [lo [hi [_ [_ ->]]]].
    reflexivity.
Qed.

(** A fit that returns has stored its closures. *)
Lemma fit_transform_returned self x y :
  is_Ok (fit_transform self x y).2 -> df_rows (searchspace self) <> [].
Proof.
  intros Hok Hrows.
  rewrite (fit_transform_empty_space _ _ _ Hrows) in Hok. exact Hok.
Qed.

(** The input closures raise nothing but torch's shape error. *)
Lemma broadcast2_raises op t v e :
  broadcast2 op t v = Raise e -> e = size_mismatch.
Proof.
  unfold broadcast2. intros H.
  destruct (decide _); [discriminate |].
  destruct v as [| a [| b v]]; try discriminate;
    destruct (decide _); congruence.
Qed.

Lemma broadcast1_raises op a b e :
  broadcast1 op a b = Raise e -> e = size_mismatch.
Proof.
  unfold broadcast1. intros H.
  destruct (decide _); [discriminate |].
  destruct a as [| a1 [| a2 a]]; destruct b as [| b1 [| b2 b]]; congruence.
Qed.

Lemma scale_x_fun_raises bounds x e :
  scale_x_fun bounds x = Raise e -> e = size_mismatch.
Proof.
  unfold scale_x_fun. intros H.
  destruct (broadcast2 Rminus x bounds.1) as [d |] eqn:Hd; cbn in H.
  - destruct (broadcast1 Rminus bounds.2 bounds.1) as [w |] eqn:Hw; cbn in H.
    + eapply broadcast2_raises. exact H.
    + inversion H; subst. eapply broadcast1_raises. exact Hw.
  - inversion H; subst. eapply broadcast2_raises. exact Hd.
Qed.

(** On inputs with as many columns as the space, [scale_x] is
    [(l - lo) / (hi - lo)], column by column. *)
Lemma scale_x_fun_same_shape (lo hi : list R) x :
  ncols x = length lo -> length hi = length lo ->
  scale_x_fun (lo, hi) x
  = Ok {| ncols := ncols x;
          rows := map (fun r => zip_with Rdiv (zip_with Rminus r lo)
                                         (zip_with Rminus hi lo)) (rows x) |}.
Proof.
  intros Hx Hhi. unfold scale_x_fun, broadcast2, broadcast1. cbn.
  rewrite (decide_True _ _ Hx). cbn.
  rewrite (decide_True _ _ Hhi). cbn.
  rewrite decide_True by (rewrite length_zip_with; lia).
  rewrite map_map. reflexivity.
Qed.

End ScalerFacts.

(** ** The fitted flag *)

Section FittedFlag.
Import Torch Pandas Utils Scaler.
Context {Label : Type}.
Implicit Types (self s : Scaler.Scaler Label) (x : Tensor2) (y m v : Tensor1).
Implicit Types (fits : list (Tensor2 * Tensor1)).

Lemma init_consistent (sp : DataFrame Label) : consistent (init sp).
Proof. intros Hfitted. discriminate. Qed.

Lemma fit_transform_consistent self x y :
  consistent self -> consistent (fit_transform self x y).1.
Proof.
  intros Hself.
  destruct (decide (df_rows (searchspace self) = [])) as [Hrows | Hrows].
  - rewrite (fit_transform_empty_space _ _ _ Hrows). exact Hself.
  - destruct (fit_transform_stores self x y Hrows) as [lo [hi [_ [_ ->]]]].
    intros _. exists (lo, hi), (mean y), (std y). cbn. auto.
Qed.

Lemma fit_transform_fitted self x y :
  fitted (fit_transform self x y).1 = true <->
  fitted self = true \/ df_rows (searchspace self) <> [].
Proof.
  destruct (decide (df_rows (searchspace self) = [])) as [Hrows | Hrows].
  - rewrite (fit_transform_empty_space _ _ _ Hrows). cbn. tauto.
  - destruct (fit_transform_stores self x y Hrows) as [lo [hi [_ [_ ->]]]].
    cbn. tauto.
Qed.

Lemma refit_searchspace self fits :
  searchspace (refit self fits) = searchspace self.
Proof.
  revert self. induction fits as [| [x y] fits IH]; intros self; [reflexivity |].
  cbn. unfold refit in IH. rewrite IH. apply fit_transform_searchspace.
Qed.

Lemma refit_consistent self fits :
  consistent self -> consistent (refit self fits).
Proof.
  revert self. induction fits as [| [x y] fits IH]; intros self Hself; [exact Hself |].
  cbn. apply IH, fit_transform_consistent, Hself.
Qed.

Lemma refit_fitted self fits :
  fitted (refit self fits) = true <->
  fitted self = true \/ (fits <> [] /\ df_rows (searchspace self) <> []).
Proof.
  revert self. induction fits as [| [x y] fits IH]; intros self.
  - cbn. split; [auto | intros [H | [H _]]; [exact H | contradiction]].
  - change (refit self ((x, y) :: fits))
      with (refit (fit_transform self x y).1 fits).
    rewrite IH, fit_transform_fitted, fit_transform_searchspace.
    split.
    + intros [[H | H] | [_ H]]; [left; exact H | right | right]; split;
        (discriminate || exact H).
    + intros [H | [_ H]]; left; [left | right]; exact H.
Qed.

Lemma some_fit_returned_stores self fits :
  some_fit_returned self fits -> fits <> [] /\ df_rows (searchspace self) <> [].
Proof.
  revert self. induction fits as [| [x y] fits IH]; intros self; cbn; [tauto |].
  intros [Hok | Hlater]; split; try discriminate.
  - eapply fit_transform_returned. exact Hok.
  - apply IH in Hlater as [_ Hrows].
    rewrite fit_transform_searchspace in Hrows. exact Hrows.
Qed.

Lemma transform_not_fitted_iff s x :
  consistent s -> (transform s x = Raise not_fitted <-> fitted s = false).
Proof.
  intros Hs. unfold transform.
  destruct (fitted s) eqn:Hfitted; cbn; [| tauto].
  destruct (Hs Hfitted) as [bounds [mu [sd [-> _]]]].
  split; [| discriminate].
  intros Hraise. apply scale_x_fun_raises in Hraise. discriminate.
Qed.

Lemma untransform_not_fitted_iff s m v :
  consistent s -> (untransform s m v = Raise not_fitted <-> fitted s = false).
Proof.
  intros Hs. unfold untransform.
  destruct (fitted s) eqn:Hfitted; cbn; [| tauto].
  destruct (Hs Hfitted) as [bounds [mu [sd [_ [-> ->]]]]].
  split; discriminate.
Qed.

(** C6, as the code has it: on a scaler that has gone through any series
    of [fit_transform] calls since its construction, [transform] and
    [untransform] raise the not-fitted error if and only if no call has
    got as far as setting the flag, that is, if there was no call or the
    experiment space has no row.  The flag is set before the training data
    are scaled, so a call that raises there counts as well as one that
    returns.  Once a call has returned, [transform] is the stored
    [scale_x] applied to its argument, and does not raise the not-fitted
    error. *)
Theorem not_fitted_error_iff (sp : DataFrame Label) fits x m v :
  (transform (refit (init sp) fits) x = Raise not_fitted
   <-> fits = [] \/ df_rows sp = []) /\
  (untransform (refit (init sp) fits) m v = Raise not_fitted
   <-> fits = [] \/ df_rows sp = []) /\
  (some_fit_returned (init sp) fits ->
   exists f, scale_x (refit (init sp) fits) = Some f /\
             transform (refit (init sp) fits) x = f x /\
             f x <> Raise not_fitted).
Proof.
  assert (Hcons : consistent (refit (init sp) fits))
    by apply refit_consistent, init_consistent.
  assert (Hflag : fitted (refit (init sp) fits) = false
                  <-> fits = [] \/ df_rows sp = []).
  { rewrite <- not_true_iff_false, refit_fitted. cbn.
    destruct fits as [| xy fits]; [intuition congruence |].
    destruct (df_rows sp) as [| r rs]; intuition congruence. }
  split; [| split].
  - rewrite transform_not_fitted_iff by exact Hcons. exact Hflag.
  - rewrite untransform_not_fitted_iff by exact Hcons. exact Hflag.
  - intros Hreturned.
    apply some_fit_returned_stores in Hreturned as [Hfits Hrows]. cbn in Hrows.
    assert (Hfitted : fitted (refit (init sp) fits) = true).
    { apply refit_fitted. right. split; assumption. }
    destruct (Hcons Hfitted) as [bounds [mu [sd [Hsx _]]]].
    exists (scale_x_fun bounds). split; [exact Hsx | split].
    + unfold transform. rewrite Hfitted, Hsx. reflexivity.
    + intros Hraise. apply scale_x_fun_raises in Hraise. discriminate.
Qed.

End FittedFlag.

(** ** DefaultScaler *)

Section DefaultScalerFacts.
Import Torch Pandas Utils Scaler.
Context {Label : Type}.
Implicit Types (self s : Scaler.Scaler Label) (x : Tensor2) (y m v : Tensor1).

(** C7: on a scaler that [fit_transform] has fitted to the targets [y],
    [untransform] maps a mean [l] to [l * std + mean] and a variance [l] to
    [l * std ^ 2], with the mean and the standard deviation of [y]; the
    closure for means is the one for targets, the closure for variances
    adds no mean. *)
Theorem untransform_of_fitted self x y m v :
  df_rows (searchspace self) <> [] ->
  untransform (fit_transform self x y).1 m v
  = Ok (map (fun l => l * std y + mean y)%R m,
        map (fun l => l * std y ^ 2)%R v) /\
  unscale_m (fit_transform self x y).1 = unscale_y (fit_transform self x y).1 /\
  unscale_y (fit_transform self x y).1
  = Some (map (fun l => l * std y + mean y)%R) /\
  unscale_s (fit_transform self x y).1
  = Some (map (fun l => l * std y ^ 2)%R).
Proof.
  intros Hrows.
  destruct (fit_transform_stores self x y Hrows) as [lo [hi [_ [_ ->]]]].
  repeat split.
Qed.

(** C8: the closures for inputs that a fit stores are made of the bounds
    of the stored experiment space alone: two fits on the same space, with
    whatever training inputs and targets, store input closures that agree
    on every argument. *)
Theorem input_scale_of_space_only s1 s2 x1 x2 y1 y2 :
  searchspace s1 = searchspace s2 ->
  df_rows (searchspace s1) <> [] ->
  exists lo hi,
    min_dim0 (to_tensor (searchspace s1)) = Ok lo /\
    max_dim0 (to_tensor (searchspace s1)) = Ok hi /\
    exists f1 f2 g1 g2,
      scale_x (fit_transform s1 x1 y1).1 = Some f1 /\
      scale_x (fit_transform s2 x2 y2).1 = Some f2 /\
      unscale_x (fit_transform s1 x1 y1).1 = Some g1 /\
      unscale_x (fit_transform s2 x2 y2).1 = Some g2 /\
      (forall l, f1 l = f2 l) /\
      (forall l, g1 l = g2 l) /\
      (forall l, transform (fit_transform s1 x1 y1).1 l
                 = transform (fit_transform s2 x2 y2).1 l) /\
      (forall l, f1 l = (d ← broadcast2 Rminus l lo;
                         w ← broadcast1 Rminus hi lo;
                         broadcast2 Rdiv d w)).
Proof.
  intros Hspace Hrows.
  assert (Hrows2 : df_rows (searchspace s2) <> []) by (rewrite <- Hspace; exact Hrows).
  destruct (fit_transform_stores s1 x1 y1 Hrows) as [lo [hi [Hlo [Hhi ->]]]].
  destruct (fit_transform_stores s2 x2 y2 Hrows2) as [lo2 [hi2 [Hlo2 [Hhi2 ->]]]].
  rewrite <- Hspace in Hlo2, Hhi2.
  assert (lo2 = lo) as -> by congruence.
  assert (hi2 = hi) as -> by congruence.
  exists lo, hi. split; [exact Hlo | split; [exact Hhi |]].
  exists (scale_x_fun (lo, hi)), (scale_x_fun (lo, hi)),
         (unscale_x_fun (lo, hi)), (unscale_x_fun (lo, hi)).
  cbn. repeat split; reflexivity.
Qed.

End DefaultScalerFacts.

(** ** The bounds of a one-feature space *)

Section ColumnBounds.

Lemma foldl_single_column (op : R -> R -> R) (a : R) (vs : list R) :
  foldl (zip_with op) [a] (map (fun v => [v]) vs) = [foldl op a vs].
Proof.
  revert a. induction vs as [| v vs IH]; intros a; [reflexivity |].
  cbn. apply IH.
Qed.

Lemma foldl_Rmin_below (a : R) (vs : list R) :
  (foldl Rmin a vs <= a)%R /\ Forall (fun v => foldl Rmin a vs <= v)%R vs.
Proof.
  revert a. induction vs as [| v vs IH]; intros a; cbn.
  - split; [lra | constructor].
  - destruct (IH (Rmin a v)) as [Hhead Hrest].
    pose proof (Rmin_l a v). pose proof (Rmin_r a v).
    split; [lra |]. constructor; [lra | exact Hrest].
Qed.

Lemma foldl_Rmax_above (a : R) (vs : list R) :
  (a <= foldl Rmax a vs)%R /\ Forall (fun v => v <= foldl Rmax a vs)%R vs.
Proof.
  revert a. induction vs as [| v vs IH]; intros a; cbn.
  - split; [lra | constructor].
  - destruct (IH (Rmax a v)) as [Hhead Hrest].
    pose proof (Rmax_l a v). pose proof (Rmax_r a v).
    split; [lra |]. constructor; [lra | exact Hrest].
Qed.

Lemma foldl_Rmin_elem (a : R) (vs : list R) : foldl Rmin a vs ∈ a :: vs.
Proof.
  revert a. induction vs as [| v vs IH]; intros a; cbn; [left |].
  specialize (IH (Rmin a v)).
  apply elem_of_cons in IH as [-> | IH].
  - unfold Rmin. destruct (Rle_dec a v); [left | right; left].
  - right; right. exact IH.
Qed.

Lemma foldl_Rmax_elem (a : R) (vs : list R) : foldl Rmax a vs ∈ a :: vs.
Proof.
  revert a. induction vs as [| v vs IH]; intros a; cbn; [left |].
  specialize (IH (Rmax a v)).
  apply elem_of_cons in IH as [-> | IH].
  - unfold Rmax. destruct (Rle_dec a v); [right; left | left].
  - right; right. exact IH.
Qed.

(** The least (greatest) value of a list that contains a lower (upper)
    bound of itself is that bound. *)
Lemma foldl_Rmin_is (c a : R) (vs : list R) :
  c ∈ a :: vs -> Forall (fun v => c <= v)%R (a :: vs) -> foldl Rmin a vs = c.
Proof.
  intros Hin Hlow.
  destruct (foldl_Rmin_below a vs) as [Hhead Hrest].
  assert (Hle : (foldl Rmin a vs <= c)%R).
  { apply elem_of_cons in Hin as [-> | Hin]; [exact Hhead |].
    rewrite Forall_forall in Hrest. apply Hrest, Hin. }
  assert (Hge : (c <= foldl Rmin a vs)%R).
  { rewrite Forall_forall in Hlow. apply Hlow, foldl_Rmin_elem. }
  lra.
Qed.

Lemma foldl_Rmax_is (c a : R) (vs : list R) :
  c ∈ a :: vs -> Forall (fun v => v <= c)%R (a :: vs) -> foldl Rmax a vs = c.
Proof.
  intros Hin Hup.
  destruct (foldl_Rmax_above a vs) as [Hhead Hrest].
  assert (Hge : (c <= foldl Rmax a vs)%R).
  { apply elem_of_cons in Hin as [-> | Hin]; [exact Hhead |].
    rewrite Forall_forall in Hrest. apply Hrest, Hin. }
  assert (Hle : (foldl Rmax a vs <= c)%R).
  { rewrite Forall_forall in Hup. apply Hup, foldl_Rmax_elem. }
  lra.
Qed.

Lemma nth_zip_with (op : R -> R -> R) (r r' : list R) (j : nat) :
  j < length r -> j < length r' ->
  nth j (zip_with op r r') 0%R = op (nth j r 0%R) (nth j r' 0%R).
Proof.
  revert r' j. induction r as [| a r IH]; intros [| b r'] j Hr Hr'; cbn in *;
    try lia.
  destruct j as [| j]; [reflexivity |]. apply IH; lia.
Qed.

(** Column [j] of the reduction of a table is the reduction of column [j]. *)
Lemma foldl_zip_with_column (op : R -> R -> R) (D j : nat) (rs : list (list R))
    (r : list R) :
  length r = D -> Forall (fun row => length row = D) rs -> j < D ->
  length (foldl (zip_with op) r rs) = D /\
  nth j (foldl (zip_with op) r rs) 0%R
  = foldl op (nth j r 0%R) (map (fun row => nth j row 0%R) rs).
Proof.
  intros Hr Hrs Hj. revert r Hr.
  induction Hrs as [| r' rs Hr' _ IH]; intros r Hr; cbn; [auto |].
  destruct (IH (zip_with op r r')) as [Hlen Hnth].
  { rewrite length_zip_with. lia. }
  split; [exact Hlen |].
  rewrite Hnth, nth_zip_with by lia. reflexivity.
Qed.

Import Torch.

(** [torch.min(t, dim=0)[0]] holds, for every column, the least value of
    the column, and [torch.max(t, dim=0)[0]] the greatest. *)
Lemma min_dim0_least (t : Tensor2) (lo : list R) (j : nat) :
  Forall (fun row => length row = ncols t) (rows t) ->
  min_dim0 t = Ok lo -> j < ncols t ->
  length lo = ncols t /\
  Forall (fun row => nth j lo 0 <= nth j row 0)%R (rows t) /\
  Exists (fun row => nth j lo 0%R = nth j row 0%R) (rows t).
Proof.
  unfold min_dim0, reduce_dim0. intros Hshape Hlo Hj.
  destruct (rows t) as [| r rs]; [discriminate |].
  inversion Hlo as [Heq]. clear Hlo.
  apply Forall_cons in Hshape as [Hr Hrs].
  destruct (foldl_zip_with_column Rmin (ncols t) j rs r Hr Hrs Hj) as [Hlen Hnth].
  split; [exact Hlen |]. rewrite Hnth.
  destruct (foldl_Rmin_below (nth j r 0%R) (map (fun row => nth j row 0%R) rs))
    as [Hhead Hrest].
  split.
  - constructor; [exact Hhead |].
    rewrite Forall_fmap in Hrest. exact Hrest.
  - pose proof (foldl_Rmin_elem (nth j r 0%R)
                  (map (fun row => nth j row 0%R) rs)) as Hin.
    apply elem_of_cons in Hin as [Hin | Hin].
    + left. exact Hin.
    + right. apply list_elem_of_fmap in Hin as [row [Hrow Hin]].
      apply Exists_exists. exists row. split; assumption.
Qed.

Lemma max_dim0_greatest (t : Tensor2) (hi : list R) (j : nat) :
  Forall (fun row => length row = ncols t) (rows t) ->
  max_dim0 t = Ok hi -> j < ncols t ->
  length hi = ncols t /\
  Forall (fun row => nth j row 0 <= nth j hi 0)%R (rows t) /\
  Exists (fun row => nth j hi 0%R = nth j row 0%R) (rows t).
Proof.
  unfold max_dim0, reduce_dim0. intros Hshape Hhi Hj.
  destruct (rows t) as [| r rs]; [discriminate |].
  inversion Hhi as [Heq]. clear Hhi.
  apply Forall_cons in Hshape as [Hr Hrs].
  destruct (foldl_zip_with_column Rmax (ncols t) j rs r Hr Hrs Hj) as [Hlen Hnth].
  split; [exact Hlen |]. rewrite Hnth.
  destruct (foldl_Rmax_above (nth j r 0%R) (map (fun row => nth j row 0%R) rs))
    as [Hhead Hrest].
  split.
  - constructor; [exact Hhead |].
    rewrite Forall_fmap in Hrest. exact Hrest.
  - pose proof (foldl_Rmax_elem (nth j r 0%R)
                  (map (fun row => nth j row 0%R) rs)) as Hin.
    apply elem_of_cons in Hin as [Hin | Hin].
    + left. exact Hin.
    + right. apply list_elem_of_fmap in Hin as [row [Hrow Hin]].
      apply Exists_exists. exists row. split; assumption.
Qed.

Context {Label : Type}.
Import Pandas Utils Examples.

Lemma one_feature_bounds (points : list (Label * R)) (lo hi : R) :
  lo ∈ points.*2 -> hi ∈ points.*2 ->
  Forall (fun p => lo <= p.2 <= hi)%R points ->
  min_dim0 (to_tensor (one_feature_space points)) = Ok [lo] /\
  max_dim0 (to_tensor (one_feature_space points)) = Ok [hi].
Proof.
  intros Hlo Hhi Hall.
  unfold min_dim0, max_dim0, reduce_dim0, to_tensor, values, one_feature_space.
  cbn. rewrite map_map. cbn.
  destruct points as [| [a0 v0] points]; [inversion Hlo |]. cbn.
  rewrite <- (map_map snd (fun v => [v]) points), !foldl_single_column.
  assert (Hbounds : Forall (fun v => lo <= v <= hi)%R (v0 :: points.*2)).
  { change (v0 :: points.*2) with (((a0, v0) :: points).*2).
    apply Forall_fmap. exact Hall. }
  split; do 2 f_equal.
  - apply foldl_Rmin_is; [exact Hlo |].
    eapply Forall_impl; [exact Hbounds | intros v Hv; cbn in Hv; lra].
  - apply foldl_Rmax_is; [exact Hhi |].
    eapply Forall_impl; [exact Hbounds | intros v Hv; cbn in Hv; lra].
Qed.

End ColumnBounds.

(** ** The worked example of the scaler *)

Section WorkedExample.
Import Torch Pandas Utils Scaler Examples.
Context {Label : Type}.

Lemma mean_2_4_6 : mean [2; 4; 6]%R = 4%R.
Proof. unfold mean, sum. cbn. field. Qed.

Lemma std_2_4_6 : std [2; 4; 6]%R = 2%R.
Proof.
  unfold std. rewrite mean_2_4_6. unfold sum. cbn.
  replace ((2 - 4) * ((2 - 4) * 1) + ((4 - 4) * ((4 - 4) * 1)
           + ((6 - 4) * ((6 - 4) * 1) + 0)))%R with 8%R by ring.
  replace (8 / (1 + 1 + 1 - 1))%R with (2 * 2)%R by field.
  apply sqrt_square. lra.
Qed.

(** C2, as the code has it: on a space whose one feature ranges over
    [0, 10], fitted to the targets 2, 4, 6, the mean is 4 and the standard
    deviation is 2 (the sample standard deviation, with Bessel's
    correction); [scale_x(5) = 0.5], [scale_y(4) = 0] and
    [unscale_variance(1) = 4]. *)
Theorem default_scaler_example (points : list (Label * R)) (x : Tensor2) :
  0%R ∈ points.*2 -> 10%R ∈ points.*2 ->
  Forall (fun p => 0 <= p.2 <= 10)%R points ->
  mean [2; 4; 6]%R = 4%R /\
  std [2; 4; 6]%R = 2%R /\
  transform (fit_transform (init (one_feature_space points)) x [2; 4; 6]%R).1
            {| ncols := 1; rows := [[5%R]] |}
  = Ok {| ncols := 1; rows := [[(1 / 2)%R]] |} /\
  (exists f,
     scale_y (fit_transform (init (one_feature_space points)) x [2; 4; 6]%R).1
     = Some f /\ f [4%R] = [0%R]) /\
  (exists g,
     unscale_s (fit_transform (init (one_feature_space points)) x [2; 4; 6]%R).1
     = Some g /\ g [1%R] = [4%R]) /\
  untransform (fit_transform (init (one_feature_space points)) x [2; 4; 6]%R).1
              [0%R] [1%R]
  = Ok ([4%R], [4%R]).
Proof.
  intros H0 H10 Hall.
  destruct (one_feature_bounds points 0 10 H0 H10 Hall) as [Hlo Hhi].
  assert (Hrows : df_rows (searchspace (init (one_feature_space points))) <> []).
  { cbn. destruct points; [inversion H0 | discriminate]. }
  destruct (fit_transform_stores (init (one_feature_space points)) x
              [2; 4; 6]%R Hrows) as [lo [hi [Hlo' [Hhi' ->]]]].
  cbn in Hlo', Hhi'. rewrite Hlo in Hlo'. rewrite Hhi in Hhi'.
  inversion Hlo'; inversion Hhi'; subst lo hi.
  rewrite mean_2_4_6, std_2_4_6.
  split; [reflexivity | split; [reflexivity | split; [| split; [| split]]]].
  - cbn. rewrite scale_x_fun_same_shape by reflexivity.
    cbn. do 4 f_equal. field.
  - eexists. split; [reflexivity |]. cbn. f_equal. field.
  - eexists. split; [reflexivity |]. cbn. f_equal. ring.
  - cbn. do 3 f_equal; ring.
Qed.

End WorkedExample.

(** ** The subclass registries *)

Section Registries.
Import Python.
Variable isabstract : PyClass -> bool.

Lemma recommender_hook_registers (reg : gmap string PyClass) (cls : PyClass)
    (name : string) :
  isabstract cls = false -> cls_type cls = Some name ->
  RecommenderRegistry.init_subclass isabstract reg cls = Ok (<[name := cls]> reg).
Proof.
  intros Hconcrete Htype. unfold RecommenderRegistry.init_subclass.
  rewrite Hconcrete, Htype. reflexivity.
Qed.

Lemma recommender_hook_skips_abstract (reg : gmap string PyClass) (cls : PyClass) :
  isabstract cls = true ->
  RecommenderRegistry.init_subclass isabstract reg cls = Ok reg.
Proof.
  intros Habstract. unfold RecommenderRegistry.init_subclass.
  rewrite Habstract. reflexivity.
Qed.

Lemma scaler_hook_registers (reg : gmap string PyClass) (cls : PyClass)
    (name : string) :
  cls_type cls = Some name ->
  ScalerRegistry.init_subclass reg cls = Ok (<[name := cls]> reg).
Proof.
  intros Htype. unfold ScalerRegistry.init_subclass. rewrite Htype. reflexivity.
Qed.

(** C9: the class statement of a concrete strategy is all it takes to
    register it: the hook it inherits stores the class under its [type],
    leaving the other entries alone.  Once [recommender.py] has run, the
    registry of recommenders is exactly
    UNRESTRICTED_RANKING -> MarginalRankingRecommender,
    RANDOM -> RandomRecommender, and once [scaler.py] has run, the registry
    of scalers is exactly DEFAULT -> DefaultScaler; neither holds its
    abstract base class. *)
Theorem registration_automatic_and_exact :
  isabstract RecommenderRegistry.MarginalRankingRecommender = false ->
  isabstract RecommenderRegistry.RandomRecommender = false ->
  (forall (reg : gmap string PyClass) cls name,
     isabstract cls = false -> cls_type cls = Some name ->
     exists reg' : gmap string PyClass,
       RecommenderRegistry.init_subclass isabstract reg cls = Ok reg' /\
       reg' !! name = Some cls /\
       forall other, other <> name -> reg' !! other = reg !! other) /\
  (forall (reg : gmap string PyClass) cls name,
     cls_type cls = Some name ->
     exists reg' : gmap string PyClass,
       ScalerRegistry.init_subclass reg cls = Ok reg' /\
       reg' !! name = Some cls /\
       forall other, other <> name -> reg' !! other = reg !! other) /\
  (exists reg : gmap string PyClass,
     RecommenderRegistry.module_registry isabstract = Ok reg /\
     reg = {[ "UNRESTRICTED_RANKING" := RecommenderRegistry.MarginalRankingRecommender;
              "RANDOM" := RecommenderRegistry.RandomRecommender ]} /\
     forall name, reg !! name <> Some RecommenderRegistry.Recommender) /\
  (exists reg : gmap string PyClass,
     ScalerRegistry.module_registry = Ok reg /\
     reg = {[ "DEFAULT" := ScalerRegistry.DefaultScaler ]} /\
     forall name, reg !! name <> Some ScalerRegistry.Scaler).
Proof.
  intros Hranking Hrandom.
  split; [| split; [| split]].
  - intros reg cls name Hconcrete Htype.
    exists (<[name := cls]> reg). split; [| split].
    + apply recommender_hook_registers; assumption.
    + apply lookup_insert_eq.
    + intros other Hother. apply lookup_insert_ne. congruence.
  - intros reg cls name Htype.
    exists (<[name := cls]> reg). split; [| split].
    + apply scaler_hook_registers; assumption.
    + apply lookup_insert_eq.
    + intros other Hother. apply lookup_insert_ne. congruence.
  - eexists. split; [| split; [reflexivity |]].
    + unfold RecommenderRegistry.module_registry, run_class_statements. cbn.
      rewrite (recommender_hook_registers _ _ "UNRESTRICTED_RANKING" Hranking eq_refl).
      cbn.
      rewrite (recommender_hook_registers _ _ "RANDOM" Hrandom eq_refl).
      reflexivity.
    + intros name Hname.
      apply lookup_insert_Some in Hname as [[_ Hname] | [_ Hname]];
        [discriminate |].
      apply lookup_singleton_Some in Hname as [_ Hname]. discriminate.
  - eexists. split; [| split; [reflexivity |]].
    + reflexivity.
    + intros name Hname.
      apply lookup_singleton_Some in Hname as [_ Hname]. discriminate.
Qed.

End Registries.

(** ** Instances *)

Section Instances.
Import Torch Pandas Utils Examples Argsort.

Lemma tied_scores :
  first_feature (unsqueeze1 (to_tensor tied_candidates)) = [3; 7; 7]%R.
Proof. reflexivity. Qed.

Lemma argsort_stable_tied : argsort_stable [3; 7; 7]%R = [1; 2; 0].
Proof. unfold argsort_stable, argsort_by. cbn. compare_scores. reflexivity. Qed.

Lemma std_argsort_tied : std_argsort_descending [3; 7; 7]%R = Some [1; 2; 0].
Proof.
  unfold std_argsort_descending, StdSort.sort. cbn.
  unfold StdSort.final_insertion_sort, StdSort.insertion_sort. cbn.
  unfold StdSort.insertion_step, StdSort.get. cbn.
  repeat (settle_comparison; cbn).
  reflexivity.
Qed.

Lemma seventeen_scores :
  first_feature (unsqueeze1 (to_tensor seventeen_tied)) = replicate 17 0%R.
Proof. reflexivity. Qed.

Lemma seventeen_zeros (j : nat) : nth j (replicate 17 0%R) 0%R = 0%R.
Proof. do 17 (destruct j as [| j]; [reflexivity |]). destruct j; reflexivity. Qed.

Lemma std_argsort_seventeen :
  std_argsort_descending (replicate 17 0%R)
  = Some [8; 16; 15; 14; 13; 12; 11; 10; 9; 0; 7; 6; 5; 4; 3; 2; 1].
Proof.
  unfold std_argsort_descending.
  assert (Hcomp : (fun i j : nat =>
                     bool_decide (nth j (replicate 17 0%R) 0 < nth i (replicate 17 0%R) 0)%R)
                  = (fun _ _ => false)).
  { apply FunctionalExtensionality.functional_extensionality. intros i.
    apply FunctionalExtensionality.functional_extensionality. intros j.
    rewrite !seventeen_zeros. apply bool_decide_eq_false_2. lra. }
  rewrite Hcomp. reflexivity.
Qed.

(** C1 fails as stated: seventeen candidates of equal score are not
    returned in the order of the table.  Up to sixteen items [std::sort]
    is an insertion sort and keeps equal items in place; beyond, its
    partitioning moves them. *)
Lemma marginal_ranking_ties_reordered :
  index seventeen_tied = seq 0 17 /\
  first_feature (unsqueeze1 (to_tensor seventeen_tied)) = replicate 17 0%R /\
  exists ilocs ids,
    std_argsort_descending (replicate 17 0%R) = Some ilocs /\
    ranks_descending (replicate 17 0%R) ilocs /\
    Recommender.MarginalRankingRecommender_recommend argsort_cpu
      {| Recommender.acquisition_function := Some first_feature |}
      seventeen_tied 17 = Ok ids /\
    ids ≡ₚ index seventeen_tied /\
    ids <> index seventeen_tied.
Proof.
  split; [reflexivity | split; [reflexivity |]].
  exists [8; 16; 15; 14; 13; 12; 11; 10; 9; 0; 7; 6; 5; 4; 3; 2; 1],
         [8; 16; 15; 14; 13; 12; 11; 10; 9; 0; 7; 6; 5; 4; 3; 2; 1].
  split; [exact std_argsort_seventeen |].
  assert (Hperm : [8; 16; 15; 14; 13; 12; 11; 10; 9; 0; 7; 6; 5; 4; 3; 2; 1]
                  ≡ₚ seq 0 17).
  { apply (bool_decide_unpack _). reflexivity. }
  split; [| split; [| split]].
  - split; [exact Hperm |].
    generalize [8; 16; 15; 14; 13; 12; 11; 10; 9; 0; 7; 6; 5; 4; 3; 2; 1].
    intros l. induction l as [| i l IH]; constructor; [exact IH |].
    apply Forall_forall. intros j _. rewrite !seventeen_zeros. lra.
  - rewrite recommend_some, seventeen_scores. unfold argsort_cpu.
    rewrite std_argsort_seventeen. reflexivity.
  - exact Hperm.
  - discriminate.
Qed.

Lemma marginal_ranking_determined_up_to_ties_witness :
  length (first_feature (unsqueeze1 (to_tensor tied_candidates)))
  = length (df_rows tied_candidates) /\
  exists ids ids',
    Recommender.MarginalRankingRecommender_recommend argsort_stable
      {| Recommender.acquisition_function := Some first_feature |}
      tied_candidates 2 = Ok ids /\
    Recommender.MarginalRankingRecommender_recommend argsort_stable
      {| Recommender.acquisition_function := Some first_feature |}
      tied_candidates 2 = Ok ids' /\
    length ids = length ids'.
Proof.
  assert (Hlen : length (first_feature (unsqueeze1 (to_tensor tied_candidates)))
                 = length (df_rows tied_candidates)) by reflexivity.
  split; [exact Hlen |].
  destruct (marginal_ranking_determined_up_to_ties argsort_stable argsort_stable
              argsort_stable_ranks argsort_stable_ranks first_feature
              tied_candidates 2 Hlen)
    as (ids & ids' & Hids & Hids' & _ & _ & Hsame & _).
  exists ids, ids'. split; [exact Hids | split; [exact Hids' | exact Hsame]].
Defined.

Lemma marginal_ranking_selects_top_witness :
  length (first_feature (unsqueeze1 (to_tensor tied_candidates)))
  = length (df_rows tied_candidates) /\
  (1 <= 2 <= Z.of_nat (length (df_rows tied_candidates)))%Z /\
  exists ids,
    Recommender.MarginalRankingRecommender_recommend argsort_stable
      {| Recommender.acquisition_function := Some first_feature |}
      tied_candidates 2 = Ok ids /\
    length ids = 2.
Proof.
  assert (Hlen : length (first_feature (unsqueeze1 (to_tensor tied_candidates)))
                 = length (df_rows tied_candidates)) by reflexivity.
  assert (Hbq : (1 <= 2 <= Z.of_nat (length (df_rows tied_candidates)))%Z)
    by (cbn; lia).
  split; [exact Hlen | split; [exact Hbq |]].
  destruct (marginal_ranking_selects_top argsort_stable argsort_stable_ranks
              first_feature tied_candidates 2 Hlen Hbq)
    as [_ [ilocs [ids [Hids [_ [_ [Hsize _]]]]]]].
  exists ids. split; [exact Hids | exact Hsize].
Defined.

Lemma marginal_ranking_beyond_pool_witness :
  length (first_feature (unsqueeze1 (to_tensor tied_candidates)))
  = length (df_rows tied_candidates) /\
  (Z.of_nat (length (df_rows tied_candidates)) < 5)%Z /\
  exists ids,
    Recommender.MarginalRankingRecommender_recommend argsort_stable
      {| Recommender.acquisition_function := Some first_feature |}
      tied_candidates 5 = Ok ids /\
    ids ≡ₚ ["a"; "b"; "c"].
Proof.
  assert (Hlen : length (first_feature (unsqueeze1 (to_tensor tied_candidates)))
                 = length (df_rows tied_candidates)) by reflexivity.
  assert (Hbq : (Z.of_nat (length (df_rows tied_candidates)) < 5)%Z)
    by (cbn; lia).
  split; [exact Hlen | split; [exact Hbq |]].
  destruct (marginal_ranking_beyond_pool argsort_stable argsort_stable_ranks
              first_feature tied_candidates 5 Hlen Hbq)
    as [ids [Hids [_ Hperm]]].
  exists ids. split; [exact Hids | exact Hperm].
Defined.

Lemma random_recommend_beyond_pool_raises_witness :
  (Z.of_nat (length (df_rows tied_candidates)) < 4)%Z /\
  Recommender.RandomRecommender_recommend (fun _ _ => [])
    {| Recommender.acquisition_function := None |} tied_candidates 4
  = Raise (ValueError
      "Cannot take a larger sample than population when 'replace=False'").
Proof.
  assert (Hbq : (Z.of_nat (length (df_rows tied_candidates)) < 4)%Z)
    by (cbn; lia).
  assert (Hrows : df_rows tied_candidates <> []) by discriminate.
  assert (Hsmall : (4 < 2 ^ 63)%Z) by lia.
  split; [exact Hbq |].
  exact (proj1 (proj2 (proj2 (random_recommend_beyond_pool_raises (fun _ _ => [])
           {| Recommender.acquisition_function := None |} tied_candidates 4 Hbq)))
           Hrows Hsmall).
Defined.

(** C3 fails as stated: beyond the pool size the call does not always
    raise the sampler's error, nor one and the same exception: with the
    batch size 2^63 on three candidates it is OverflowError, raised when
    the size is converted and before anything is sampled, and on a table
    without candidates it is numpy's refusal to draw from nothing. *)
Lemma random_recommend_other_errors :
  (Z.of_nat (length (df_rows tied_candidates)) < 2 ^ 63)%Z /\
  Recommender.RandomRecommender_recommend (fun _ _ => [])
    {| Recommender.acquisition_function := None |} tied_candidates (2 ^ 63)
  = Raise (OverflowError "Python int too large to convert to C long") /\
  (Z.of_nat (length (df_rows no_candidates)) < 1)%Z /\
  Recommender.RandomRecommender_recommend (fun _ _ => [])
    {| Recommender.acquisition_function := None |} no_candidates 1
  = Raise (ValueError "a must be greater than 0 unless no samples are taken").
Proof.
  split; [cbn; lia | split; [reflexivity | split; [cbn; lia | reflexivity]]].
Qed.

Lemma unit_to_ten_rows : df_rows (Scaler.searchspace (Scaler.init unit_to_ten)) <> [].
Proof. discriminate. Qed.

Lemma default_scaler_example_witness :
  (0%R ∈ [("lo", 0%R); ("mid", 5%R); ("hi", 10%R)].*2 /\
   10%R ∈ [("lo", 0%R); ("mid", 5%R); ("hi", 10%R)].*2 /\
   Forall (fun p : string * R => 0 <= p.2 <= 10)%R
          [("lo", 0%R); ("mid", 5%R); ("hi", 10%R)]) /\
  Scaler.transform
    (Scaler.fit_transform (Scaler.init unit_to_ten) three_inputs [2; 4; 6]%R).1
    {| ncols := 1; rows := [[5%R]] |}
  = Ok {| ncols := 1; rows := [[(1 / 2)%R]] |}.
Proof.
  assert (H0 : 0%R ∈ [("lo", 0%R); ("mid", 5%R); ("hi", 10%R)].*2)
    by (cbn; left).
  assert (H10 : 10%R ∈ [("lo", 0%R); ("mid", 5%R); ("hi", 10%R)].*2)
    by (cbn; right; right; left).
  assert (Hall : Forall (fun p : string * R => 0 <= p.2 <= 10)%R
                        [("lo", 0%R); ("mid", 5%R); ("hi", 10%R)])
    by (repeat constructor; cbn; lra).
  split; [split; [exact H0 | split; [exact H10 | exact Hall]] |].
  exact (proj1 (proj2 (proj2 (default_scaler_example
           [("lo", 0%R); ("mid", 5%R); ("hi", 10%R)] three_inputs H0 H10 Hall)))).
Defined.

Lemma untransform_of_fitted_witness :
  df_rows (Scaler.searchspace (Scaler.init unit_to_ten)) <> [] /\
  Scaler.untransform
    (Scaler.fit_transform (Scaler.init unit_to_ten) three_inputs [2; 4; 6]%R).1
    [0%R] [1%R]
  = Ok (map (fun l => l * std [2; 4; 6] + mean [2; 4; 6])%R [0%R],
        map (fun l => l * std [2; 4; 6] ^ 2)%R [1%R]).
Proof.
  split; [exact unit_to_ten_rows |].
  exact (proj1 (untransform_of_fitted (Scaler.init unit_to_ten) three_inputs
                  [2; 4; 6]%R [0%R] [1%R] unit_to_ten_rows)).
Defined.

Lemma input_scale_of_space_only_witness :
  Scaler.searchspace (Scaler.init unit_to_ten)
  = Scaler.searchspace (Scaler.init unit_to_ten) /\
  df_rows (Scaler.searchspace (Scaler.init unit_to_ten)) <> [] /\
  forall l,
    Scaler.transform
      (Scaler.fit_transform (Scaler.init unit_to_ten) three_inputs [2; 4; 6]%R).1 l
    = Scaler.transform
        (Scaler.fit_transform (Scaler.init unit_to_ten)
           {| ncols := 1; rows := [[5%R]] |} [1; 3]%R).1 l.
Proof.
  split; [reflexivity | split; [exact unit_to_ten_rows |]].
  destruct (input_scale_of_space_only (Scaler.init unit_to_ten)
              (Scaler.init unit_to_ten) three_inputs
              {| ncols := 1; rows := [[5%R]] |} [2; 4; 6]%R [1; 3]%R
              eq_refl unit_to_ten_rows)
    as (lo & hi & _ & _ & f1 & f2 & g1 & g2 & _ & _ & _ & _ & _ & _ & Htransform & _).
  exact Htransform.
Defined.

Lemma registration_automatic_and_exact_witness :
  derives_from_ABC RecommenderRegistry.MarginalRankingRecommender = false /\
  derives_from_ABC RecommenderRegistry.RandomRecommender = false /\
  RecommenderRegistry.module_registry derives_from_ABC
  = Ok {[ "UNRESTRICTED_RANKING" := RecommenderRegistry.MarginalRankingRecommender;
          "RANDOM" := RecommenderRegistry.RandomRecommender ]}.
Proof.
  assert (Hranking : derives_from_ABC RecommenderRegistry.MarginalRankingRecommender
                     = false) by reflexivity.
  assert (Hrandom : derives_from_ABC RecommenderRegistry.RandomRecommender = false)
    by reflexivity.
  split; [exact Hranking | split; [exact Hrandom |]].
  destruct (registration_automatic_and_exact derives_from_ABC Hranking Hrandom)
    as [_ [_ [[reg [Hreg [Heq _]]] _]]].
  rewrite <- Heq. exact Hreg.
Defined.

(** C2 fails as stated: the standard deviation that [torch.std] gives the
    targets 2, 4, 6 is 2, not about 1.63, and the variance 1 is unscaled
    to 4, not to about 2.67. *)
Lemma default_scaler_example_std :
  std [2; 4; 6]%R = 2%R /\
  (std [2; 4; 6] - 163 / 100 > 3 / 10)%R /\
  (exists g,
     Scaler.unscale_s
       (Scaler.fit_transform (Scaler.init unit_to_ten) three_inputs [2; 4; 6]%R).1
     = Some g /\ g [1%R] = [4%R] /\ (nth 0 (g [1%R]) 0 - 267 / 100 > 1)%R).
Proof.
  split; [apply std_2_4_6 | split; [rewrite std_2_4_6; lra |]].
  destruct (fit_transform_stores (Scaler.init unit_to_ten) three_inputs
              [2; 4; 6]%R unit_to_ten_rows) as [lo [hi [_ [_ ->]]]].
  eexists. split; [reflexivity |].
  cbn. rewrite std_2_4_6.
  split; [f_equal; ring | lra].
Qed.

(** C6 fails as stated: on a space with two features, a [fit_transform]
    with a three-column input raises torch's shape error, after it has
    stored the closures and set the flag; no [fit_transform] has returned on
    this scaler, and yet [transform] and [untransform] return. *)
Lemma fitted_after_failed_fit :
  (Scaler.fit_transform (Scaler.init two_feature_space) three_columns [1; 2]%R).2
  = Raise size_mismatch /\
  ~ Scaler.some_fit_returned (Scaler.init two_feature_space)
      [(three_columns, [1; 2]%R)] /\
  Scaler.fitted
    (Scaler.refit (Scaler.init two_feature_space) [(three_columns, [1; 2]%R)])
  = true /\
  is_Ok (Scaler.transform
           (Scaler.refit (Scaler.init two_feature_space)
              [(three_columns, [1; 2]%R)]) two_columns) /\
  is_Ok (Scaler.untransform
           (Scaler.refit (Scaler.init two_feature_space)
              [(three_columns, [1; 2]%R)]) [0%R] [1%R]).
Proof.
  assert (Hraise :
    (Scaler.fit_transform (Scaler.init two_feature_space) three_columns
       [1; 2]%R).2 = Raise size_mismatch) by reflexivity.
  split; [exact Hraise | split; [| split; [reflexivity | split]]].
  - cbn [Scaler.some_fit_returned fst snd]. rewrite Hraise. cbn. tauto.
  - cbn. exact I.
  - cbn. exact I.
Qed.

End Instances.

(* ================================================================= *)
(** * Further properties *)

(** ** Positional lookup *)

Section LookupFacts.
Context {A : Type}.
Variable l : list A.
Variable e : exception.

Abbreviation get := (fun p : nat => match l !! p with
                                    | Some a => Ok a
                                    | None => Raise e
                                    end).

Lemma mapM_lookup_in_range (positions : list nat) :
  Forall (fun p => p < length l) positions ->
  exists xs, mapM get positions = Ok xs /\
             Forall2 (fun p a => l !! p = Some a) positions xs.
Proof.
  induction 1 as [| p ps Hp _ [xs [Hxs Hall]]].
  - exists []. split; [reflexivity | constructor].
  - destruct (lookup_lt_is_Some_2 l p Hp) as [a Ha].
    exists (a :: xs). split.
    + cbn. rewrite Ha. cbn. rewrite Hxs. reflexivity.
    + constructor; assumption.
Qed.

Lemma mapM_lookup_Ok (positions : list nat) (xs : list A) :
  mapM get positions = Ok xs ->
  Forall2 (fun p a => l !! p = Some a) positions xs.
Proof.
  revert xs. induction positions as [| p ps IH]; intros xs Hxs; cbn in Hxs.
  - inversion Hxs. constructor.
  - destruct (l !! p) as [a |] eqn:Ha; cbn in Hxs; [| discriminate].
    destruct (mapM get ps) as [ys |] eqn:Hys; cbn in Hxs; [| discriminate].
    inversion Hxs. subst xs. constructor; [exact Ha | apply IH; reflexivity].
Qed.

Lemma mapM_lookup_take (positions : list nat) (xs : list A) (k : nat) :
  mapM get positions = Ok xs -> mapM get (take k positions) = Ok (take k xs).
Proof.
  revert xs k. induction positions as [| p ps IH]; intros xs k Hxs; cbn in Hxs.
  - inversion Hxs. rewrite !take_nil. reflexivity.
  - destruct (l !! p) as [a |] eqn:Ha; cbn in Hxs; [| discriminate].
    destruct (mapM get ps) as [ys |] eqn:Hys; cbn in Hxs; [| discriminate].
    inversion Hxs. subst xs.
    destruct k as [| k]; [reflexivity |].
    cbn. rewrite Ha. cbn. rewrite (IH ys k eq_refl). reflexivity.
Qed.

Lemma mapM_lookup_out_of_range (positions : list nat) :
  Exists (fun p => length l <= p) positions -> mapM get positions = Raise e.
Proof.
  induction positions as [| p ps IH]; intros Hex; [inversion Hex |].
  cbn. destruct (l !! p) as [a |] eqn:Ha; cbn; [| reflexivity].
  apply Exists_cons in Hex as [Hp | Hps].
  - apply lookup_lt_Some in Ha. lia.
  - rewrite (IH Hps). reflexivity.
Qed.

(** Labels found at distinct positions of a list without repetition are
    distinct. *)
Lemma lookup_NoDup (positions : list nat) (xs : list A) :
  Forall2 (fun p a => l !! p = Some a) positions xs ->
  NoDup positions -> NoDup l -> NoDup xs.
Proof.
  intros Hall Hpos Hl. apply NoDup_alt. intros i j x Hi Hj.
  destruct (Forall2_lookup_r _ _ _ _ _ Hall Hi) as [p [Hp Hpx]].
  destruct (Forall2_lookup_r _ _ _ _ _ Hall Hj) as [q [Hq Hqx]].
  assert (Hpq : p = q) by exact (NoDup_lookup l p q x Hl Hpx Hqx).
  subst q. exact (NoDup_lookup positions i j p Hpos Hp Hq).
Qed.

Lemma lookup_elem_of (positions : list nat) (xs : list A) :
  Forall2 (fun p a => l !! p = Some a) positions xs ->
  Forall (fun a => a ∈ l) xs.
Proof.
  induction 1 as [| p a ps xs Hpa _ IH]; constructor; [| exact IH].
  eapply list_elem_of_lookup_2. exact Hpa.
Qed.

End LookupFacts.

(** ** More on MarginalRankingRecommender *)

Section MarginalRankingEdges.
Import Torch Pandas Utils Recommender.
Context {Label : Type}.
Variable argsort : Tensor1 -> list nat.
Hypothesis argsort_ranks : forall v, ranks_descending v (argsort v).


(** X3: whatever the batch size, positive, zero or negative, the call
    raises nothing when the scoring function returns one score per
    candidate: it returns at most as many identifiers as the pool has, all
    of them identifiers of the table, and without repetition when the
    table's identifiers are unique. *)
Theorem marginal_ranking_selection_sound
    (acqf : AcquisitionFunction) (T : DataFrame Label) (bq : Z) :
  length (acqf (unsqueeze1 (to_tensor T))) = length (df_rows T) ->
  exists ids,
    MarginalRankingRecommender_recommend argsort
      {| acquisition_function := Some acqf |} T bq = Ok ids /\
    length ids <= length (df_rows T) /\
    Forall (fun a => a ∈ index T) ids /\
    (NoDup (index T) -> NoDup ids).
Proof.
  intros Hlen. rewrite recommend_some.
  set (scores := acqf (unsqueeze1 (to_tensor T))) in *.
  assert (Hslice : exists k, slice_to bq (argsort scores) = take k (argsort scores)).
  { unfold slice_to. destruct (_ <? _)%Z; eauto. }
  destruct Hslice as [k ->].
  assert (Hidx : length (index T) = length scores).
  { unfold index. rewrite length_map. symmetry. exact Hlen. }
  assert (Hrange : Forall (fun p => p < length (index T)) (take k (argsort scores))).
  { apply Forall_take, Forall_forall. intros p Hp.
    apply (argsort_elem_of argsort argsort_ranks) in Hp. rewrite Hidx. exact Hp. }
  destruct (index_getitem_in_range _ _ Hrange) as [ids [Hids Hall]].
  exists ids. split; [exact Hids | split; [| split]].
  - rewrite <- (Forall2_length _ _ _ Hall), length_take.
    rewrite (argsort_length argsort argsort_ranks). subst scores. lia.
  - eapply lookup_elem_of. exact Hall.
  - intros Hunique. eapply lookup_NoDup; [exact Hall | | exact Hunique].
    eapply sublist_NoDup; [apply (argsort_NoDup argsort argsort_ranks) |].
    apply sublist_take.
Qed.

(** X4: a scoring function that returns more scores than there are
    candidates makes the positional lookup fail as soon as the slice
    covers the whole ranking: the call raises IndexError. *)
Theorem marginal_ranking_surplus_scores
    (acqf : AcquisitionFunction) (T : DataFrame Label) (bq : Z) :
  length (df_rows T) < length (acqf (unsqueeze1 (to_tensor T))) ->
  (Z.of_nat (length (acqf (unsqueeze1 (to_tensor T)))) <= bq)%Z ->
  MarginalRankingRecommender_recommend argsort
    {| acquisition_function := Some acqf |} T bq
  = Raise (IndexError "index is out of bounds for axis 0").
Proof.
  intros Hmore Hbq. rewrite recommend_some.
  set (scores := acqf (unsqueeze1 (to_tensor T))) in *.
  rewrite slice_to_beyond
    by (rewrite (argsort_length argsort argsort_ranks); subst scores; lia).
  apply mapM_lookup_out_of_range.
  apply Exists_exists. exists (length (df_rows T)). split.
  - apply (argsort_elem_of argsort argsort_ranks). exact Hmore.
  - unfold index. rewrite length_map. lia.
Qed.

End MarginalRankingEdges.

Section MarginalRankingPrefix.
Import Torch Pandas Utils Recommender.
Context {Label : Type}.

(** X2: asking for fewer candidates gives a prefix of what asking for more
    gives: the selection for the batch size [k] is the first [k]
    identifiers of the selection for any larger batch size. *)
Theorem marginal_ranking_prefix
    (argsort : Tensor1 -> list nat) (acqf : AcquisitionFunction)
    (T : DataFrame Label) (k k' : Z) (ids' : list Label) :
  (0 <= k <= k')%Z ->
  MarginalRankingRecommender_recommend argsort
    {| acquisition_function := Some acqf |} T k' = Ok ids' ->
  MarginalRankingRecommender_recommend argsort
    {| acquisition_function := Some acqf |} T k = Ok (take (Z.to_nat k) ids').
Proof.
  intros Hk. rewrite !recommend_some, !slice_to_nonneg by lia.
  intros Hids'.
  replace (take (Z.to_nat k) (argsort (acqf (unsqueeze1 (to_tensor T)))))
    with (take (Z.to_nat k)
            (take (Z.to_nat k') (argsort (acqf (unsqueeze1 (to_tensor T)))))).
  - apply mapM_lookup_take. exact Hids'.
  - rewrite take_take. f_equal. lia.
Qed.

End MarginalRankingPrefix.

(** ** More on RandomRecommender *)

Section RandomSamplingEdges.
Import Torch Pandas Utils Recommender Contracts.
Context {Label : Type}.
Variable choice : nat -> nat -> list nat.
Hypothesis choice_draws : draws_without_replacement choice.

Lemma index_of_rows (T : DataFrame Label) (positions : list nat)
    (rs : list (Label * list R)) :
  Forall2 (fun p r => df_rows T !! p = Some r) positions rs ->
  Forall2 (fun p a => index T !! p = Some a) positions (map fst rs).
Proof.
  induction 1 as [| p r ps rs' Hpr _ IH]; cbn; constructor; [| exact IH].
  unfold index. rewrite list_lookup_fmap, Hpr. reflexivity.
Qed.

(** X5: for a batch size from 0 to the pool size the call returns
    [batch_quantity] identifiers, those at the positions the random
    generator draws: all of them identifiers of the table, from pairwise
    distinct rows, and without repetition when the table's identifiers are
    unique.  The scoring function is not consulted. *)
Theorem random_recommend_within_pool
    (self : Recommender) (T : DataFrame Label) (bq : Z) :
  (0 <= bq <= Z.of_nat (length (df_rows T)))%Z ->
  exists ids,
    RandomRecommender_recommend choice self T bq = Ok ids /\
    length ids = Z.to_nat bq /\
    Forall2 (fun p a => index T !! p = Some a)
            (choice (length (df_rows T)) (Z.to_nat bq)) ids /\
    NoDup (choice (length (df_rows T)) (Z.to_nat bq)) /\
    Forall (fun a => a ∈ index T) ids /\
    (NoDup (index T) -> NoDup ids).
Proof.
  intros Hbq.
  destruct (choice_draws (length (df_rows T)) (Z.to_nat bq)) as [Hlen [Hnodup Hrange]];
    [lia |].
  unfold RandomRecommender_recommend, sample.
  destruct (Z.ltb_spec bq 0) as [Hneg | _]; [lia |].
  destruct (decide (df_rows T = [] /\ bq <> 0%Z)) as [[Hempty Hbq0] | _].
  { rewrite Hempty in Hbq. cbn in Hbq. lia. }
  destruct (Z.leb_spec bq (Z.of_nat (length (df_rows T)))) as [_ | Hgt]; [| lia].
  destruct (mapM_lookup_in_range (df_rows T) (IndexError "indices are out-of-bounds")
              _ Hrange) as [rs [Hrs Hall]].
  rewrite Hrs. cbn.
  pose proof (index_of_rows T _ _ Hall) as Hids.
  exists (map fst rs). split; [reflexivity | split; [| split; [exact Hids | split; [exact Hnodup | split]]]].
  - rewrite <- (Forall2_length _ _ _ Hids). exact Hlen.
  - eapply lookup_elem_of. exact Hids.
  - intros Hunique. eapply lookup_NoDup; [exact Hids | exact Hnodup | exact Hunique].
Qed.

End RandomSamplingEdges.

(** ** Shapes of the bounds *)

Section ShapeFacts.
Import Torch Contracts.

Lemma foldl_zip_with_length (op : R -> R -> R) (D : nat) (rs : list (list R))
    (r : list R) :
  length r = D -> Forall (fun row => length row = D) rs ->
  length (foldl (zip_with op) r rs) = D.
Proof.
  intros Hr Hrs. revert r Hr.
  induction Hrs as [| r' rs Hr' _ IH]; intros r Hr; cbn; [exact Hr |].
  apply IH. rewrite length_zip_with. lia.
Qed.

Lemma reduce_dim0_length (op : R -> R -> R) (name : string) (t : Tensor2)
    (v : list R) :
  well_shaped t -> reduce_dim0 op name t = Ok v -> length v = ncols t.
Proof.
  unfold well_shaped, reduce_dim0. intros Hshape Hv.
  destruct (rows t) as [| r rs]; [discriminate |].
  inversion Hv. apply Forall_cons in Hshape as [Hr Hrs].
  apply foldl_zip_with_length; assumption.
Qed.

End ShapeFacts.

(** ** Inputs and the shape of the space *)

Section InputScaling.
Import Torch Pandas Utils Scaler Contracts.
Context {Label : Type}.
Implicit Types (self : Scaler.Scaler Label) (x l : Tensor2) (y : Tensor1).
Implicit Types (lo hi : list R).

Lemma fit_transform_with_bounds self x y lo hi :
  min_dim0 (to_tensor (searchspace self)) = Ok lo ->
  max_dim0 (to_tensor (searchspace self)) = Ok hi ->
  fit_transform self x y
  = ({| searchspace := searchspace self;
        fitted := true;
        scale_x := Some (scale_x_fun (lo, hi));
        scale_y := Some (scale_y_fun (mean y) (std y));
        unscale_x := Some (unscale_x_fun (lo, hi));
        unscale_y := Some (unscale_y_fun (mean y) (std y));
        unscale_m := Some (unscale_m_fun (mean y) (std y));
        unscale_s := Some (unscale_s_fun (std y)) |},
     sx ← scale_x_fun (lo, hi) x; Ok (sx, scale_y_fun (mean y) (std y) y)).
Proof.
  intros Hlo Hhi. unfold fit_transform. rewrite Hlo, Hhi. reflexivity.
Qed.

(** X7: on inputs with the columns of the space a fitted scaler raises
    nothing: [transform] returns a tensor of the shape of its argument,
    with as many rows and as many entries in every row. *)
Theorem transform_keeps_shape self x y l :
  df_rows (searchspace self) <> [] ->
  well_shaped (to_tensor (searchspace self)) ->
  well_shaped l -> ncols l = df_ncols (searchspace self) ->
  exists sx,
    transform (fit_transform self x y).1 l = Ok sx /\
    ncols sx = ncols l /\
    length (rows sx) = length (rows l) /\
    well_shaped sx.
Proof.
  intros Hrows Hspace Hshape Hcols.
  destruct (bounds_of_space _ Hrows) as [lo [hi [Hlo Hhi]]].
  assert (Hllo : length lo = ncols l).
  { rewrite Hcols. apply (reduce_dim0_length _ _ _ _ Hspace Hlo). }
  assert (Hlhi : length hi = ncols l).
  { rewrite Hcols. apply (reduce_dim0_length _ _ _ _ Hspace Hhi). }
  rewrite (fit_transform_with_bounds self x y lo hi Hlo Hhi).
  unfold transform. cbn.
  rewrite scale_x_fun_same_shape by lia.
  eexists. split; [reflexivity |]. cbn.
  split; [reflexivity | split; [apply length_map |]].
  unfold well_shaped in *. cbn.
  apply Forall_fmap. eapply Forall_impl; [exact Hshape |].
  intros row Hrow. cbn in *. rewrite !length_zip_with. lia.
Qed.

(** X9: an input whose number of columns is neither that of the space nor
    one (and the space has more than one feature or none) does not
    broadcast against the bounds: a fitted scaler raises torch's shape
    error on it, and a [fit_transform] with such training inputs raises
    the same error, after it has fitted the scaler. *)
Theorem ill_shaped_inputs_raise self x y lo hi l :
  min_dim0 (to_tensor (searchspace self)) = Ok lo ->
  max_dim0 (to_tensor (searchspace self)) = Ok hi ->
  well_shaped (to_tensor (searchspace self)) ->
  ncols l <> df_ncols (searchspace self) -> ncols l <> 1 ->
  df_ncols (searchspace self) <> 1 ->
  transform (fit_transform self x y).1 l = Raise size_mismatch /\
  (fit_transform self l y).2 = Raise size_mismatch /\
  fitted (fit_transform self l y).1 = true.
Proof.
  intros Hlo Hhi Hspace Hcols Hone Hspace1.
  assert (Hllo : length lo = df_ncols (searchspace self))
    by apply (reduce_dim0_length _ _ _ _ Hspace Hlo).
  assert (Hraise : scale_x_fun (lo, hi) l = Raise size_mismatch).
  { unfold scale_x_fun, broadcast2. cbn.
    rewrite decide_False by lia.
    destruct lo as [| a [| b lo]]; cbn in *; try lia;
      rewrite decide_False by lia; reflexivity. }
  rewrite !(fit_transform_with_bounds self _ y lo hi Hlo Hhi).
  unfold transform. cbn. rewrite Hraise. repeat split.
Qed.

End InputScaling.

(** ** The life of a scaler object *)

Section ScalerLife.
Import Torch Pandas Utils Scaler.
Context {Label : Type}.
Implicit Types (self : Scaler.Scaler Label) (x : Tensor2) (y : Tensor1).

(** X14: re-fitting overwrites: a second [fit_transform] leaves the object,
    and returns or raises, exactly as if the first one had never been
    called; nothing of an earlier fit survives a later one. *)
Theorem refit_overwrites self x1 y1 x2 y2 :
  fit_transform (fit_transform self x1 y1).1 x2 y2 = fit_transform self x2 y2.
Proof.
  destruct (decide (df_rows (searchspace self) = [])) as [Hrows | Hrows].
  - rewrite (fit_transform_empty_space self x1 y1 Hrows). reflexivity.
  - destruct (fit_transform_stores self x1 y1 Hrows) as [lo [hi [Hlo [Hhi ->]]]].
    unfold fit_transform. cbn. rewrite Hlo, Hhi. reflexivity.
Qed.

(** X15: what [fit_transform] returns is what the fitted object gives
    afterwards: the scaled inputs are [transform] of the training inputs,
    and the scaled targets are the stored [scale_y] of the training
    targets. *)
Theorem fit_transform_returns_transform self x y sx sy :
  (fit_transform self x y).2 = Ok (sx, sy) ->
  transform (fit_transform self x y).1 x = Ok sx /\
  exists f, scale_y (fit_transform self x y).1 = Some f /\ f y = sy.
Proof.
  intros Hfit.
  assert (Hrows : df_rows (searchspace self) <> []).
  { apply (fit_transform_returned self x y). rewrite Hfit. exact I. }
  destruct (fit_transform_stores self x y Hrows) as [lo [hi [_ [_ Heq]]]].
  rewrite Heq in *. cbn in *. unfold transform. cbn.
  destruct (scale_x_fun (lo, hi) x) as [sx' |]; cbn in Hfit; [| discriminate].
  inversion Hfit. subst. split; [reflexivity |].
  eexists. split; reflexivity.
Qed.

(** X16: a fitted scaler stays fitted, over its own experiment space:
    whatever [fit_transform] calls follow, returning or raising, the flag
    remains set, the space is the one given at construction, and
    [transform] never again raises the not-fitted error. *)
Theorem fitted_for_good (sp : DataFrame Label) (before after : list (Tensor2 * Tensor1))
    (l : Tensor2) :
  fitted (refit (init sp) before) = true ->
  fitted (refit (refit (init sp) before) after) = true /\
  searchspace (refit (refit (init sp) before) after) = sp /\
  transform (refit (refit (init sp) before) after) l <> Raise not_fitted.
Proof.
  intros Hfitted.
  assert (Hflag : fitted (refit (refit (init sp) before) after) = true).
  { apply refit_fitted. left. exact Hfitted. }
  split; [exact Hflag | split].
  - rewrite !refit_searchspace. reflexivity.
  - intros Hraise.
    apply transform_not_fitted_iff in Hraise.
    + congruence.
    + apply refit_consistent, refit_consistent, init_consistent.
Qed.

End ScalerLife.

(** ** The registries after any series of class statements *)

Section RegistryContents.
Import Python.
Variable isabstract : PyClass -> bool.

Abbreviation step :=
  (fun (r : result (gmap string PyClass)) cls =>
     reg ← r; RecommenderRegistry.init_subclass isabstract reg cls).

Lemma statements_after_raise (e : exception) (classes : list PyClass) :
  foldl step (Raise e) classes = Raise e.
Proof. induction classes as [| c classes IH]; [reflexivity | exact IH]. Qed.

Lemma statements_from (acc : gmap string PyClass) (classes : list PyClass) :
  Forall (fun c => isabstract c = false -> is_Some (cls_type c)) classes ->
  exists reg : gmap string PyClass,
    foldl step (Ok acc) classes = Ok reg /\
    forall name,
      reg !! name
      = match last (filter (fun c => isabstract c = false /\ cls_type c = Some name)
                           classes) with
        | Some c => Some c
        | None => acc !! name
        end.
Proof.
  intros Htyped. revert acc.
  induction Htyped as [| c classes Hc _ IH]; intros acc.
  - exists acc. split; [reflexivity |]. intros name. reflexivity.
  - cbn [foldl mbind result_bind].
    unfold RecommenderRegistry.init_subclass at 2.
    destruct (isabstract c) eqn:Hconcrete; cbn [negb].
    + destruct (IH acc) as [reg [Hreg Hlookup]].
      exists reg. split; [exact Hreg |]. intros name.
      rewrite filter_cons_False by (intros [Hfalse _]; congruence).
      apply Hlookup.
    + destruct (Hc eq_refl) as [t Ht]. rewrite Ht.
      destruct (IH (<[t := c]> acc)) as [reg [Hreg Hlookup]].
      exists reg. split; [exact Hreg |]. intros name.
      rewrite Hlookup.
      destruct (decide (t = name)) as [-> | Hne].
      * rewrite filter_cons_True by (split; assumption).
        rewrite last_cons, lookup_insert_eq.
        destruct (last _); reflexivity.
      * rewrite filter_cons_False by (intros [_ Hname]; congruence).
        rewrite lookup_insert_ne by exact Hne. reflexivity.
Qed.

Lemma statements_raise (acc : gmap string PyClass) (classes : list PyClass) :
  Exists (fun c => isabstract c = false /\ cls_type c = None) classes ->
  foldl step (Ok acc) classes = Raise no_type_attribute.
Proof.
  intros Huntyped. revert acc.
  induction classes as [| c classes IH]; intros acc; [inversion Huntyped |].
  cbn [foldl mbind result_bind].
  unfold RecommenderRegistry.init_subclass at 2.
  destruct (isabstract c) eqn:Hconcrete; cbn [negb].
  - apply IH. apply Exists_cons in Huntyped as [[Hfalse _] | Hrest];
      [congruence | exact Hrest].
  - destruct (cls_type c) as [t |] eqn:Ht.
    + apply IH. apply Exists_cons in Huntyped as [[_ Hnone] | Hrest];
        [congruence | exact Hrest].
    + apply statements_after_raise.
Qed.

(** X17: whatever subclasses of [Recommender] a program defines, the
    registry holds, under every name, the last concrete class defined with
    that [type], and nothing under a name no concrete class has: abstract
    classes are never entered, two classes of one name raise nothing and
    the later replaces the earlier.  If instead some concrete class has no
    [type], its class statement raises AttributeError. *)
Theorem recommender_registry_contents (classes : list PyClass) :
  (Forall (fun c => isabstract c = false -> is_Some (cls_type c)) classes ->
   exists reg : gmap string PyClass,
     run_class_statements (RecommenderRegistry.init_subclass isabstract) classes
     = Ok reg /\
     forall name,
       reg !! name
       = last (filter (fun c => isabstract c = false /\ cls_type c = Some name)
                      classes)) /\
  (Exists (fun c => isabstract c = false /\ cls_type c = None) classes ->
   run_class_statements (RecommenderRegistry.init_subclass isabstract) classes
   = Raise no_type_attribute).
Proof.
  split.
  - intros Htyped.
    destruct (statements_from ∅ classes Htyped) as [reg [Hreg Hlookup]].
    exists reg. split; [exact Hreg |]. intros name.
    rewrite Hlookup, lookup_empty. destruct (last _); reflexivity.
  - intros Huntyped. apply statements_raise. exact Huntyped.
Qed.

End RegistryContents.

Section ScalerRegistryContents.
Import Python.

(** X18: the hook of [Scaler] enters every subclass, abstract or not:
    the registry holds, under every name, the last class defined with that
    [type]; a subclass without a [type] of its own or inherited, such as
    an abstract intermediate class, cannot be defined: its class statement
    raises AttributeError. *)
Theorem scaler_registry_contents (classes : list PyClass) :
  (Forall (fun c => is_Some (cls_type c)) classes ->
   exists reg : gmap string PyClass,
     run_class_statements ScalerRegistry.init_subclass classes = Ok reg /\
     forall name,
       reg !! name = last (filter (fun c => cls_type c = Some name) classes)) /\
  (Exists (fun c => cls_type c = None) classes ->
   run_class_statements ScalerRegistry.init_subclass classes
   = Raise no_type_attribute).
Proof.
  change (run_class_statements ScalerRegistry.init_subclass classes)
    with (run_class_statements
            (RecommenderRegistry.init_subclass (fun _ => false)) classes).
  split.
  - intros Htyped.
    destruct (statements_from (fun _ => false) ∅ classes) as [reg [Hreg Hlookup]].
    { eapply Forall_impl; [exact Htyped |]. intros c Hc _. exact Hc. }
    exists reg. split; [exact Hreg |]. intros name.
    rewrite Hlookup, lookup_empty.
    rewrite (list_filter_iff _ (fun c => cls_type c = Some name))
      by (intros c; tauto).
    destruct (last _); reflexivity.
  - intros Huntyped. apply statements_raise.
    eapply Exists_impl; [exact Huntyped |]. intros c Hc. split; [reflexivity | exact Hc].
Qed.

End ScalerRegistryContents.

(** ** Further instances *)

Section FurtherInstances.
Import Torch Pandas Utils Examples Argsort Contracts.

Lemma first_positions_draws : draws_without_replacement first_positions.
Proof.
  intros population n Hn. unfold first_positions.
  split; [apply length_seq | split; [apply NoDup_seq |]].
  apply Forall_forall. intros p Hp. apply elem_of_seq in Hp. lia.
Qed.

Lemma tied_length :
  length (first_feature (unsqueeze1 (to_tensor tied_candidates)))
  = length (df_rows tied_candidates).
Proof. reflexivity. Qed.

Lemma tied_stable_two :
  Recommender.MarginalRankingRecommender_recommend argsort_stable
    {| Recommender.acquisition_function := Some first_feature |}
    tied_candidates 2 = Ok ["b"; "c"].
Proof. rewrite recommend_some, tied_scores, argsort_stable_tied. reflexivity. Qed.

Lemma unit_to_ten_bounds :
  min_dim0 (to_tensor unit_to_ten) = Ok [0%R] /\
  max_dim0 (to_tensor unit_to_ten) = Ok [10%R].
Proof.
  apply (one_feature_bounds [("lo", 0%R); ("mid", 5%R); ("hi", 10%R)] 0 10).
  - cbn. left.
  - cbn. right; right; left.
  - repeat constructor; cbn; lra.
Qed.

Lemma unit_to_ten_shaped : well_shaped (to_tensor unit_to_ten).
Proof. repeat constructor. Qed.

Lemma three_inputs_shaped : well_shaped three_inputs.
Proof. repeat constructor. Qed.

Lemma unit_to_ten_fit :
  exists sx sy,
    (Scaler.fit_transform (Scaler.init unit_to_ten) three_inputs [2; 4; 6]%R).2
    = Ok (sx, sy).
Proof.
  destruct unit_to_ten_bounds as [Hlo Hhi].
  rewrite (fit_transform_with_bounds (Scaler.init unit_to_ten) three_inputs
             [2; 4; 6]%R [0%R] [10%R] Hlo Hhi).
  cbn. rewrite scale_x_fun_same_shape by reflexivity. cbn. eauto.
Qed.


Lemma marginal_ranking_prefix_witness :
  (0 <= 1 <= 2)%Z /\
  Recommender.MarginalRankingRecommender_recommend argsort_stable
    {| Recommender.acquisition_function := Some first_feature |}
    tied_candidates 2 = Ok ["b"; "c"] /\
  Recommender.MarginalRankingRecommender_recommend argsort_stable
    {| Recommender.acquisition_function := Some first_feature |}
    tied_candidates 1 = Ok ["b"].
Proof.
  assert (Hk : (0 <= 1 <= 2)%Z) by lia.
  split; [exact Hk | split; [exact tied_stable_two |]].
  exact (marginal_ranking_prefix argsort_stable first_feature tied_candidates
           1 2 ["b"; "c"] Hk tied_stable_two).
Defined.

Lemma marginal_ranking_selection_sound_witness :
  length (first_feature (unsqueeze1 (to_tensor tied_candidates)))
  = length (df_rows tied_candidates) /\
  exists ids,
    Recommender.MarginalRankingRecommender_recommend argsort_stable
      {| Recommender.acquisition_function := Some first_feature |}
      tied_candidates (-7) = Ok ids /\
    length ids <= 3.
Proof.
  split; [exact tied_length |].
  destruct (marginal_ranking_selection_sound argsort_stable argsort_stable_ranks
              first_feature tied_candidates (-7) tied_length)
    as [ids [Hids [Hlen _]]].
  exists ids. split; [exact Hids | exact Hlen].
Defined.

Lemma marginal_ranking_surplus_scores_witness :
  length (df_rows tied_candidates)
  < length ((fun _ => [1; 2; 3; 4]%R) (unsqueeze1 (to_tensor tied_candidates))) /\
  (Z.of_nat (length ((fun _ => [1; 2; 3; 4]%R)
                       (unsqueeze1 (to_tensor tied_candidates)))) <= 4)%Z /\
  Recommender.MarginalRankingRecommender_recommend argsort_stable
    {| Recommender.acquisition_function := Some (fun _ => [1; 2; 3; 4]%R) |}
    tied_candidates 4
  = Raise (IndexError "index is out of bounds for axis 0").
Proof.
  assert (Hmore : length (df_rows tied_candidates)
                  < length ((fun _ : Tensor3 => [1; 2; 3; 4]%R)
                              (unsqueeze1 (to_tensor tied_candidates))))
    by (cbn; lia).
  assert (Hbq : (Z.of_nat (length ((fun _ : Tensor3 => [1; 2; 3; 4]%R)
                   (unsqueeze1 (to_tensor tied_candidates)))) <= 4)%Z)
    by (cbn; lia).
  split; [exact Hmore | split; [exact Hbq |]].
  exact (marginal_ranking_surplus_scores argsort_stable argsort_stable_ranks
           (fun _ => [1; 2; 3; 4]%R) tied_candidates 4 Hmore Hbq).
Defined.

Lemma random_recommend_within_pool_witness :
  draws_without_replacement first_positions /\
  (0 <= 2 <= Z.of_nat (length (df_rows tied_candidates)))%Z /\
  exists ids,
    Recommender.RandomRecommender_recommend first_positions
      {| Recommender.acquisition_function := None |} tied_candidates 2 = Ok ids /\
    length ids = 2.
Proof.
  assert (Hbq : (0 <= 2 <= Z.of_nat (length (df_rows tied_candidates)))%Z)
    by (cbn; lia).
  split; [exact first_positions_draws | split; [exact Hbq |]].
  destruct (random_recommend_within_pool first_positions first_positions_draws
              {| Recommender.acquisition_function := None |} tied_candidates 2 Hbq)
    as [ids [Hids [Hlen _]]].
  exists ids. split; [exact Hids | exact Hlen].
Defined.

Lemma transform_keeps_shape_witness :
  (df_rows (Scaler.searchspace (Scaler.init unit_to_ten)) <> [] /\
   well_shaped (to_tensor (Scaler.searchspace (Scaler.init unit_to_ten))) /\
   well_shaped three_inputs /\
   ncols three_inputs = df_ncols (Scaler.searchspace (Scaler.init unit_to_ten))) /\
  exists sx,
    Scaler.transform
      (Scaler.fit_transform (Scaler.init unit_to_ten) three_inputs [2; 4; 6]%R).1
      three_inputs = Ok sx /\
    length (rows sx) = 3.
Proof.
  split.
  { split; [exact unit_to_ten_rows |].
    split; [exact unit_to_ten_shaped |].
    split; [exact three_inputs_shaped | reflexivity]. }
  destruct (transform_keeps_shape (Scaler.init unit_to_ten) three_inputs
              [2; 4; 6]%R three_inputs unit_to_ten_rows unit_to_ten_shaped
              three_inputs_shaped eq_refl)
    as [sx [Hsx [_ [Hrows _]]]].
  exists sx. split; [exact Hsx | exact Hrows].
Defined.

Lemma two_feature_shaped : well_shaped (to_tensor two_feature_space).
Proof. repeat constructor. Qed.

Lemma ill_shaped_inputs_raise_witness :
  (min_dim0 (to_tensor (Scaler.searchspace (Scaler.init two_feature_space)))
   = Ok [Rmin 0 1; Rmin 0 2] /\
   max_dim0 (to_tensor (Scaler.searchspace (Scaler.init two_feature_space)))
   = Ok [Rmax 0 1; Rmax 0 2] /\
   well_shaped (to_tensor (Scaler.searchspace (Scaler.init two_feature_space))) /\
   ncols three_columns
   <> df_ncols (Scaler.searchspace (Scaler.init two_feature_space)) /\
   ncols three_columns <> 1 /\
   df_ncols (Scaler.searchspace (Scaler.init two_feature_space)) <> 1) /\
  Scaler.transform
    (Scaler.fit_transform (Scaler.init two_feature_space) two_columns [1; 2]%R).1
    three_columns = Raise size_mismatch.
Proof.
  assert (Hlo : min_dim0 (to_tensor (Scaler.searchspace (Scaler.init two_feature_space)))
                = Ok [Rmin 0 1; Rmin 0 2]) by reflexivity.
  assert (Hhi : max_dim0 (to_tensor (Scaler.searchspace (Scaler.init two_feature_space)))
                = Ok [Rmax 0 1; Rmax 0 2]) by reflexivity.
  assert (Hcols : ncols three_columns
                  <> df_ncols (Scaler.searchspace (Scaler.init two_feature_space)))
    by (cbn; lia).
  assert (Hone : ncols three_columns <> 1) by (cbn; lia).
  assert (Hspace1 : df_ncols (Scaler.searchspace (Scaler.init two_feature_space)) <> 1)
    by (cbn; lia).
  split.
  { repeat split; try assumption. exact two_feature_shaped. }
  exact (proj1 (ill_shaped_inputs_raise (Scaler.init two_feature_space) two_columns
                  [1; 2]%R _ _ three_columns Hlo Hhi two_feature_shaped
                  Hcols Hone Hspace1)).
Defined.

Lemma fit_transform_returns_transform_witness :
  exists sx sy,
    (Scaler.fit_transform (Scaler.init unit_to_ten) three_inputs [2; 4; 6]%R).2
    = Ok (sx, sy) /\
    Scaler.transform
      (Scaler.fit_transform (Scaler.init unit_to_ten) three_inputs [2; 4; 6]%R).1
      three_inputs = Ok sx.
Proof.
  destruct unit_to_ten_fit as [sx [sy Hfit]].
  exists sx, sy. split; [exact Hfit |].
  exact (proj1 (fit_transform_returns_transform (Scaler.init unit_to_ten)
                  three_inputs [2; 4; 6]%R sx sy Hfit)).
Defined.

Lemma two_feature_fitted :
  Scaler.fitted
    (Scaler.refit (Scaler.init two_feature_space) [(two_columns, [1; 2]%R)])
  = true.
Proof. reflexivity. Qed.

Lemma fitted_for_good_witness :
  Scaler.fitted
    (Scaler.refit (Scaler.init two_feature_space) [(two_columns, [1; 2]%R)])
  = true /\
  Scaler.fitted
    (Scaler.refit
       (Scaler.refit (Scaler.init two_feature_space) [(two_columns, [1; 2]%R)])
       [(three_columns, [1; 2]%R)])
  = true.
Proof.
  split; [exact two_feature_fitted |].
  exact (proj1 (fitted_for_good two_feature_space [(two_columns, [1; 2]%R)]
                  [(three_columns, [1; 2]%R)] two_columns two_feature_fitted)).
Defined.

End FurtherInstances.
